(** * plot_generator: synthetic Plotly figures for rendering benchmarks

    A shallow embedding of [src/plot_generator.py].  Python integers are
    [Z], Python strings are [string], numpy arrays of doubles are lists
    over an abstract carrier [F] with the arithmetic the module uses, and
    numpy's process-wide generator is an explicit state threaded through
    every draw. *)

From Stdlib Require Import List ZArith String Ascii Bool Lia.
From Stdlib Require Import Permutation Sorted.
From Stdlib Require Import DecimalString DecimalPos.
Import ListNotations.

Local Open Scope string_scope.
Local Open Scope Z_scope.

(** ** Python built-ins used by the module *)

(** [range(n)] for an integer [n]: empty when [n <= 0]. *)
Definition range (n : Z) : list Z :=
  map Z.of_nat (seq 0 (Z.to_nat n)).

(** The decimal text of an integer: [str(n)] with the limit on the number
    of digits switched off.  [int_to_text] below is the conversion under
    CPython's default limit. *)
Definition str (n : Z) : string :=
  match n with
  | Z0 => "0"
  | Zpos p => NilEmpty.string_of_uint (Pos.to_uint p)
  | Zneg p => "-" ++ NilEmpty.string_of_uint (Pos.to_uint p)
  end.

(** [[c] * n]: a string of [n] copies of a character. *)
Fixpoint string_repeat (c : ascii) (n : nat) : string :=
  match n with
  | O => EmptyString
  | S n' => String c (string_repeat c n')
  end.

(** The format spec [{j:0Wd}] of an f-string, for a non-negative [j]:
    decimal digits, left-padded with zeros up to width [W]. *)
Definition zfill (width : nat) (j : Z) : string :=
  let s := str j in
  string_repeat "0" (width - String.length s) ++ s.

Definition is_upper (c : ascii) : bool :=
  let n := nat_of_ascii c in (Nat.leb 65 n && Nat.leb n 90)%bool.

Definition is_lower (c : ascii) : bool :=
  let n := nat_of_ascii c in (Nat.leb 97 n && Nat.leb n 122)%bool.

Definition to_upper (c : ascii) : ascii :=
  if is_lower c then ascii_of_nat (nat_of_ascii c - 32) else c.

Definition to_lower (c : ascii) : ascii :=
  if is_upper c then ascii_of_nat (nat_of_ascii c + 32) else c.

(** [s.title()] on ASCII text: the first letter of every run of letters
    is upper-cased, the others lower-cased. *)
Fixpoint title_from (prev_cased : bool) (s : string) : string :=
  match s with
  | EmptyString => EmptyString
  | String c s' =>
      let cased := (is_upper c || is_lower c)%bool in
      String (if prev_cased then to_lower c else to_upper c)
             (title_from cased s')
  end.

Definition py_title (s : string) : string := title_from false s.

(** [ord(c)] of a one-character string. *)
Definition ord (c : ascii) : Z := Z.of_nat (nat_of_ascii c).

(** [x in xs] for a list of strings. *)
Definition str_in (x : string) (xs : list string) : bool :=
  existsb (String.eqb x) xs.

(** Exceptions the module can raise.  Both the unknown-plot-type error
    of [generate_plot] and the failure of [int()] are [ValueError]s. *)
Inductive exn : Type :=
| ValueError (msg : string).

(** ** Text and [int(s)], base 10 *)

(** Python text: a sequence of Unicode code points. *)
Definition ustr : Type := list N.

(** The code points of an ASCII text. *)
Definition codes (s : string) : ustr :=
  map N_of_ascii (list_ascii_of_string s).

(** CPython's default limit on the digits of an integer converted from
    or to decimal text, [sys.get_int_max_str_digits()]. *)
Definition int_max_str_digits : Z := 4300.

(** The number of decimal digits of an integer. *)
Definition decimal_digits (n : Z) : Z :=
  Z.of_nat (String.length (str (Z.abs n))).

(** [Py_ISSPACE]: the white space [int()] skips in ASCII text. *)
Definition c_isspace (c : N) : bool :=
  ((9 <=? c) && (c <=? 13) || (c =? 32))%N%bool.

(** [Py_UNICODE_ISSPACE] (Unicode 14.0, as in CPython 3.11). *)
Definition unicode_isspace (c : N) : bool :=
  ((9 <=? c) && (c <=? 13) || (28 <=? c) && (c <=? 32)
   || (c =? 0x85) || (c =? 0xa0) || (c =? 0x1680)
   || (0x2000 <=? c) && (c <=? 0x200a)
   || (c =? 0x2028) || (c =? 0x2029) || (c =? 0x202f) || (c =? 0x205f)
   || (c =? 0x3000))%N%bool.

(** The code points of the digit zero of every run of ten Unicode
    decimal digits (Unicode 14.0). *)
Definition decimal_zeros : list N :=
  [0x30; 0x660; 0x6f0; 0x7c0; 0x966; 0x9e6; 0xa66; 0xae6; 0xb66; 0xbe6;
   0xc66; 0xce6; 0xd66; 0xde6; 0xe50; 0xed0; 0xf20; 0x1040; 0x1090;
   0x17e0; 0x1810; 0x1946; 0x19d0; 0x1a80; 0x1a90; 0x1b50; 0x1bb0;
   0x1c40; 0x1c50; 0xa620; 0xa8d0; 0xa900; 0xa9d0; 0xa9f0; 0xaa50;
   0xabf0; 0xff10; 0x104a0; 0x10d30; 0x11066; 0x110f0; 0x11136; 0x111d0;
   0x112f0; 0x11450; 0x114d0; 0x11650; 0x116c0; 0x11730; 0x118e0;
   0x11950; 0x11c50; 0x11d50; 0x11da0; 0x16a60; 0x16ac0; 0x16b50;
   0x1d7ce; 0x1d7d8; 0x1d7e2; 0x1d7ec; 0x1d7f6; 0x1e140; 0x1e2f0;
   0x1e950; 0x1fbf0]%N.

(** [Py_UNICODE_TODECIMAL]: the value of a decimal digit. *)
Definition unicode_todecimal (c : N) : option N :=
  match find (fun z => (z <=? c) && (c <? z + 10))%N%bool decimal_zeros with
  | Some z => Some (c - z)%N
  | None => None
  end.

(** What [int()] first does to every character: ASCII stays, any other
    white space becomes a blank, any other decimal digit its ASCII
    digit, and the rest a question mark. *)
Definition to_ascii (c : N) : N :=
  if (c <? 127)%N then c
  else if unicode_isspace c then 32%N
  else match unicode_todecimal c with
       | Some d => (48 + d)%N
       | None => 63%N
       end.

Fixpoint skip_spaces (l : list N) : list N :=
  match l with
  | c :: l' => if c_isspace c then skip_spaces l' else l
  | [] => []
  end.

Definition is_digit_code (c : N) : bool := ((48 <=? c) && (c <=? 57))%N%bool.

Definition digit_of (c : N) : Z := Z.of_N c - 48.

(** The digits of a literal from its first character on: digits, with
    single underscores allowed between two digits.  Gives the value, the
    number of digits and the text left over, or [None] for an
    underscore that is not followed by a digit. *)
Fixpoint scan_digits (acc count : Z) (l : list N)
  : option (Z * Z * list N) :=
  match l with
  | c :: l' =>
      if is_digit_code c then
        scan_digits (10 * acc + digit_of c) (count + 1) l'
      else if (c =? 95)%N then
        match l' with
        | d :: l'' =>
            if is_digit_code d then
              scan_digits (10 * acc + digit_of d) (count + 1) l''
            else None
        | [] => None
        end
      else Some (acc, count, l)
  | [] => Some (acc, count, [])
  end.

Definition hex_digit (d : N) : ascii :=
  ascii_of_N (if (d <? 10)%N then 48 + d else 87 + d).

(** [width] hexadecimal digits of a number, lowest last. *)
Fixpoint hex (width : nat) (n : N) : string :=
  match width with
  | O => EmptyString
  | S w => hex w (n / 16) ++ String (hex_digit (n mod 16)) EmptyString
  end.

Definition backslash : ascii := ascii_of_N 92.
Definition quote1 : ascii := ascii_of_N 39.
Definition quote2 : ascii := ascii_of_N 34.

(** One character of [repr(s)] inside quotes of kind [q]. *)
Definition repr_char (q : ascii) (c : N) : string :=
  let esc (x : string) := String backslash x in
  if (c =? 92)%N then esc (String backslash EmptyString)
  else if (c =? N_of_ascii q)%N then esc (String q EmptyString)
  else if (c =? 9)%N then esc "t"
  else if (c =? 10)%N then esc "n"
  else if (c =? 13)%N then esc "r"
  else if ((32 <=? c) && (c <? 127))%N%bool
       then String (ascii_of_N c) EmptyString
  else if (c <? 256)%N then esc ("x" ++ hex 2 c)
  else if (c <? 65536)%N then esc ("u" ++ hex 4 c)
  else esc ("U" ++ hex 8 c).

(** [repr(s)] as bytes.  Printable characters outside ASCII, which
    [repr] writes as they are, come out as escapes here. *)
Definition py_repr (s : ustr) : string :=
  let q := if (existsb (N.eqb 39) s && negb (existsb (N.eqb 34) s))%bool
           then quote2 else quote1 in
  String q (concat "" (map (repr_char q) s)) ++ String q EmptyString.

Definition invalid_literal (s : ustr) : exn :=
  ValueError ("invalid literal for int() with base 10: " ++ py_repr s).

Definition too_many_digits (count : Z) : exn :=
  ValueError ("Exceeds the limit (4300 digits) for integer string "
              ++ "conversion: value has " ++ str count
              ++ " digits; use sys.set_int_max_str_digits() "
              ++ "to increase the limit").

(** [int(s)] for a text [s]: leading white space, an optional sign, the
    digits, then only white space; more than 4300 digits are refused. *)
Definition py_int (s : ustr) : exn + Z :=
  let a := skip_spaces (map to_ascii s) in
  let (negative, body) :=
    match a with
    | c :: r => if (c =? 43)%N then (false, r)
                else if (c =? 45)%N then (true, r)
                else (false, a)
    | [] => (false, a)
    end in
  match body with
  | c :: _ => if (c =? 95)%N then inl (invalid_literal s) else
      match scan_digits 0 0 body with
      | None => inl (invalid_literal s)
      | Some (v, count, rest) =>
          if count =? 0 then inl (invalid_literal s)
          else if int_max_str_digits <? count
               then inl (too_many_digits count)
          else match skip_spaces rest with
               | [] => inr (if negative then - v else v)
               | _ :: _ => inl (invalid_literal s)
               end
      end
  | [] => inl (invalid_literal s)
  end.

(** Integer-to-text conversion under the default limit: [str(n)] and
    the [{n}] of an f-string raise when [n] has more than 4300 digits. *)
Definition int_to_text (n : Z) : exn + string :=
  if int_max_str_digits <? decimal_digits n then
    inl (ValueError ("Exceeds the limit (4300 digits) for integer string "
                     ++ "conversion; use sys.set_int_max_str_digits() "
                     ++ "to increase the limit"))
  else inr (str n).

(** *** Integer literals, declaratively *)

(** What may follow the first digit of a literal: nothing, a digit, or
    an underscore and a digit, and so on. *)
Inductive run_tail : list N -> Prop :=
| tail_end : run_tail []
| tail_digit (d : N) (r : list N) :
    is_digit_code d = true -> run_tail r -> run_tail (d :: r)
| tail_underscore (d : N) (r : list N) :
    is_digit_code d = true -> run_tail r -> run_tail (95%N :: d :: r).

(** The value of the digits of a literal, underscores left out. *)
Definition decimal_value (l : list N) : Z :=
  fold_left (fun a c => 10 * a + digit_of c) (filter is_digit_code l) 0.

Definition count_digits (l : list N) : Z :=
  Z.of_nat (List.length (filter is_digit_code l)).

(** [int_literal s n k]: the text [s] is an integer literal of [n] with
    [k] digits: once every character is brought to ASCII it is white
    space, an optional sign, a digit followed by a [run_tail], and white
    space. *)
Definition int_literal (s : ustr) (n : Z) (k : Z) : Prop :=
  exists (pre sign : list N) (d : N) (r post : list N),
    map to_ascii s = (pre ++ sign ++ (d :: r) ++ post)%list /\
    forallb c_isspace pre = true /\
    forallb c_isspace post = true /\
    is_digit_code d = true /\ run_tail r /\
    k = count_digits (d :: r) /\
    ((sign = [] \/ sign = [43%N]) /\ n = decimal_value (d :: r) \/
     sign = [45%N] /\ n = - decimal_value (d :: r)).

(** ** Doubles and the random generator *)

(** The double-precision operations the module applies to array
    elements. *)
Class Float64 (F : Type) : Type := {
  of_int : Z -> F;
  fadd : F -> F -> F;
  fsub : F -> F -> F;
  fmul : F -> F -> F;
  fdiv : F -> F -> F;
  fneg : F -> F;
  fsin : F -> F;
  fexp : F -> F;
  np_pi : F;
  fle : F -> F -> bool
}.

(** The three samplers of numpy's legacy generator that the
    distributions below are built from; each consumes generator state. *)
Class BitGen (F St : Type) : Type := {
  legacy_gauss : St -> F * St;
  legacy_standard_exponential : St -> F * St;
  next_double : St -> F * St
}.

(** ** Plotly figures *)

Record Marker (F : Type) : Type := mkMarker {
  marker_size : Z;
  marker_color : list F;
  marker_colorscale : string;
  marker_showscale : bool
}.
Arguments mkMarker {F}.
Arguments marker_size {F}.
Arguments marker_color {F}.
Arguments marker_colorscale {F}.
Arguments marker_showscale {F}.

(** One trace, with the attributes the module sets. *)
Inductive Trace (F : Type) : Type :=
| Scattergl (x y : list F) (mode : string) (marker : Marker F)
            (name : string) (showlegend : bool)
| Scatter (x y : list F) (mode : string) (name : string)
          (line_width : option F) (fill : option string)
| Bar (x : list string) (y : list F) (name : string)
| Histogram (x : list F) (nbinsx : Z) (name : string) (opacity : F)
| Box (x : list string) (y : list F)
| Heatmap (z : list (list F)) (colorscale : string) (showscale : bool)
| Pie (labels : list string) (values : list F) (textinfo hoverinfo : string)
| Violin (x : list string) (y : list F)
| Funnel (y : list string) (x : list F) (textinfo : string).
Arguments Scattergl {F}.
Arguments Scatter {F}.
Arguments Bar {F}.
Arguments Histogram {F}.
Arguments Box {F}.
Arguments Heatmap {F}.
Arguments Pie {F}.
Arguments Violin {F}.
Arguments Funnel {F}.

Record Subplots : Type := mkSubplots {
  grid_rows : Z;
  grid_cols : Z;
  subplot_titles : list string;
  shared_xaxes : bool;
  shared_yaxes : bool
}.

Record Layout : Type := mkLayout {
  title : option string;
  layout_showlegend : option bool;
  barmode : option string
}.

(** A figure: the subplot grid if it was made by [make_subplots], its
    traces in insertion order, each with the (row, col) it was added at,
    and the layout. *)
Record Figure (F : Type) : Type := mkFigure {
  grid : option Subplots;
  data : list (Trace F * option (Z * Z));
  layout : Layout
}.
Arguments mkFigure {F}.
Arguments grid {F}.
Arguments data {F}.
Arguments layout {F}.

Definition empty_layout : Layout := mkLayout None None None.

(** [go.Figure()] *)
Definition go_Figure {F} : Figure F := mkFigure None [] empty_layout.

(** [make_subplots(rows, cols, subplot_titles, shared_xaxes,
    shared_yaxes)] *)
Definition make_subplots {F} (rows cols : Z) (titles : list string)
    (shared_x shared_y : bool) : Figure F :=
  mkFigure (Some (mkSubplots rows cols titles shared_x shared_y)) []
           empty_layout.

(** [fig.add_trace(tr)] and [fig.add_trace(tr, row=r, col=c)] *)
Definition add_trace {F} (fig : Figure F) (tr : Trace F)
    (cell : option (Z * Z)) : Figure F :=
  mkFigure (grid fig) (data fig ++ [(tr, cell)])%list (layout fig).

(** [fig.update_layout(...)]: only the given keys change. *)
Definition update_layout {F} (fig : Figure F) (new_title : option string)
    (new_showlegend : option bool) (new_barmode : option string) : Figure F :=
  let l := layout fig in
  let pick {A} (n o : option A) := match n with Some _ => n | None => o end in
  mkFigure (grid fig) (data fig)
    (mkLayout (pick new_title (title l))
              (pick new_showlegend (layout_showlegend l))
              (pick new_barmode (barmode l))).

(** A two-column [pd.DataFrame({"category": ..., "value": ...})]. *)
Record DataFrame (F : Type) : Type := mkDataFrame {
  df_category : list string;
  df_value : list F
}.
Arguments mkDataFrame {F}.
Arguments df_category {F}.
Arguments df_value {F}.

(** [px.box(df, x="category", y="value", title=t)]: without a colour
    column Plotly Express builds one trace over the two columns. *)
Definition px_box {F} (df : DataFrame F) (t : string) : Figure F :=
  mkFigure None [(Box (df_category df) (df_value df), None)]
           (mkLayout (Some t) None None).

(** [px.violin(df, y="value", x="category", title=t)] *)
Definition px_violin {F} (df : DataFrame F) (t : string) : Figure F :=
  mkFigure None [(Violin (df_category df) (df_value df), None)]
           (mkLayout (Some t) None None).

(** Different plot types to cycle through. *)
Definition PLOT_TYPES : list string :=
  ["scatter"; "line"; "bar"; "histogram"; "box";
   "heatmap"; "pie"; "violin"; "area"; "funnel"].

Section Synthesizer.

Context {F St : Type} {FO : Float64 F} {RG : BitGen F St}.

(** ** Computations that draw from the generator *)

Definition Rand (A : Type) : Type := St -> A * St.

Definition ret {A} (a : A) : Rand A := fun s => (a, s).

Definition bind {A B} (m : Rand A) (k : A -> Rand B) : Rand B :=
  fun s => let (a, s') := m s in k a s'.

Notation "x <- m ;; k" := (bind m (fun x => k))
  (at level 61, m at next level, right associativity).

(** [size] successive results of one sampler, in draw order. *)
Fixpoint replicateM {A} (size : nat) (sample : Rand A) : Rand (list A) :=
  match size with
  | O => ret []
  | S size' =>
      v <- sample ;;
      vs <- replicateM size' sample ;;
      ret (v :: vs)
  end.

(** A [for] loop whose body updates a local value and may draw. *)
Fixpoint for_each {A X} (l : list A) (body : A -> X -> Rand X) (x : X)
  : Rand X :=
  match l with
  | [] => ret x
  | a :: l' => x' <- body a x ;; for_each l' body x'
  end.

(** ** The numpy calls of the module *)

(** [np.random.randn(n)] *)
Definition np_random_randn (n : nat) : Rand (list F) :=
  replicateM n legacy_gauss.

(** [np.random.randn(rows, cols)], filled row by row. *)
Definition np_random_randn2 (rows cols : nat) : Rand (list (list F)) :=
  replicateM rows (np_random_randn cols).

(** [np.random.normal(loc, scale, size)] *)
Definition np_random_normal (loc scale : F) (size : nat) : Rand (list F) :=
  replicateM size (g <- legacy_gauss ;; ret (fadd loc (fmul scale g))).

(** [np.random.exponential(scale, size)] *)
Definition np_random_exponential (scale : F) (size : nat) : Rand (list F) :=
  replicateM size (e <- legacy_standard_exponential ;; ret (fmul scale e)).

(** [np.random.uniform(low, high)], one value. *)
Definition np_random_uniform (low high : F) : Rand F :=
  u <- next_double ;; ret (fadd low (fmul (fsub high low) u)).

(** [a + k] for an array [a] and a Python integer [k]. *)
Definition add_int (a : list F) (k : Z) : list F :=
  map (fun v => fadd v (of_int k)) a.

(** An elementwise binary operation on two arrays of one length. *)
Definition map2 {A B C} (f : A -> B -> C) (l1 : list A) (l2 : list B)
  : list C :=
  map (fun p => f (fst p) (snd p)) (combine l1 l2).

(** [np.linspace(start, stop, num)] with the end point included. *)
Definition np_linspace (start stop : F) (num : nat) : list F :=
  match num with
  | O => []
  | S O => [fadd (fmul (of_int 0) (fsub stop start)) start]
  | _ =>
      let step := fdiv (fsub stop start) (of_int (Z.of_nat num - 1)) in
      let y := map (fun k => fadd (fmul (of_int k) step) start)
                   (range (Z.of_nat num)) in
      (removelast y ++ [stop])%list
  end.

Fixpoint cumsum_from (acc : F) (l : list F) : list F :=
  match l with
  | [] => []
  | v :: l' => let a := fadd acc v in a :: cumsum_from a l'
  end.

(** [np.cumsum(a)] *)
Definition np_cumsum (a : list F) : list F :=
  match a with
  | [] => []
  | v :: l => v :: cumsum_from v l
  end.

Fixpoint insert_sorted (v : F) (l : list F) : list F :=
  match l with
  | [] => [v]
  | w :: l' => if fle v w then v :: l else w :: insert_sorted v l'
  end.

(** [np.sort(a)]: the elements in ascending order. *)
Fixpoint np_sort (a : list F) : list F :=
  match a with
  | [] => []
  | v :: l => insert_sorted v (np_sort l)
  end.

(** The literals [0.1], [0.7] and [1.5]. *)
Definition lit_0_1 : F := fdiv (of_int 1) (of_int 10).
Definition lit_0_7 : F := fdiv (of_int 7) (of_int 10).
Definition lit_1_5 : F := fdiv (of_int 3) (of_int 2).

(** ** [generate_plot], branch by branch *)

Definition plot_title (index : Z) (description : string) : string :=
  "Plot " ++ str (index + 1) ++ ": " ++ description.

Definition scatter_body (i : Z) (fig : Figure F) : Rand (Figure F) :=
  let n_points := 1000%nat in
  gx <- np_random_randn n_points ;;
  let x := add_int gx ((i mod 10) * 2) in
  gy <- np_random_randn n_points ;;
  let y := add_int gy ((i / 10) * 2) in
  colors <- np_random_randn n_points ;;
  let subplot_idx := i mod 4 in
  let row := subplot_idx / 2 + 1 in
  let col := subplot_idx mod 2 + 1 in
  ret (add_trace fig
         (Scattergl x y "markers" (mkMarker 2 colors "Viridis" false)
                    ("Dataset " ++ str (i + 1)) false)
         (Some (row, col))).

Definition scatter_plot (fig : Figure F) (index : Z) : Rand (Figure F) :=
  fig <- for_each (range 50) scatter_body fig ;;
  ret (update_layout fig
         (Some (plot_title index
                  "Scatter Plots (50 traces, 50,000 points total)"))
         (Some false) None).

Definition line_body (i : Z) (fig : Figure F) : Rand (Figure F) :=
  let x := np_linspace (of_int 0) (of_int 10) 2000 in
  let phase := fdiv (fmul (of_int i) np_pi) (of_int 4) in
  let wave := map fsin (map (fun v => fadd v phase) x) in
  let damping := map fexp (map (fun v => fdiv (fneg v) (of_int 10)) x) in
  noise <- np_random_randn 2000 ;;
  let y := map2 fadd (map2 fmul wave damping) (map (fmul lit_0_1) noise) in
  let row := i / 2 + 1 in
  let col := i mod 2 + 1 in
  ret (add_trace fig
         (Scatter x y "lines" ("Signal " ++ str (i + 1)) (Some lit_1_5) None)
         (Some (row, col))).

Definition line_plot (fig : Figure F) (index : Z) : Rand (Figure F) :=
  fig <- for_each (range 4) line_body fig ;;
  ret (update_layout fig
         (Some (plot_title index "Line Charts (8,000 points total)"))
         None None).

Definition bar_body (categories : list string) (i : Z) (fig : Figure F)
  : Rand (Figure F) :=
  e <- np_random_exponential (of_int 10) 50 ;;
  let values := add_int e (i * 5) in
  let row := i / 2 + 1 in
  let col := i mod 2 + 1 in
  ret (add_trace fig (Bar categories values ("Group " ++ str (i + 1)))
                 (Some (row, col))).

Definition bar_plot (fig : Figure F) (index : Z) : Rand (Figure F) :=
  let categories := map (fun j => "Cat_" ++ zfill 3 j) (range 50) in
  fig <- for_each (range 4) (bar_body categories) fig ;;
  ret (update_layout fig
         (Some (plot_title index "Bar Charts (200 bars total)"))
         (Some false) None).

Definition histogram_body (i : Z) (fig : Figure F) : Rand (Figure F) :=
  data <- np_random_normal (of_int i) (of_int 1) 2000 ;;
  ret (add_trace fig
         (Histogram data 50 ("Distribution " ++ str (i + 1)) lit_0_7)
         None).

Definition histogram_plot (fig : Figure F) (index : Z) : Rand (Figure F) :=
  fig <- for_each (range 3) histogram_body fig ;;
  ret (update_layout fig
         (Some (plot_title index "Histogram (6,000 samples)"))
         None (Some "overlay")).

(** The accumulators [all_data] and [all_categories] of the box and
    violin branches. *)
Definition Columns : Type := (list F * list string)%type.

Definition extend_columns (acc : Columns) (cat : string) (samples : list F)
  : Columns :=
  ((fst acc ++ samples)%list,
   (snd acc ++ repeat cat (List.length samples))%list).

Definition box_body (cat : string) (acc : Columns) : Rand Columns :=
  mu <- np_random_uniform (of_int (-2)) (of_int 2) ;;
  samples <- np_random_normal mu (of_int 1) 200 ;;
  ret (extend_columns acc cat samples).

Definition box_plot (index : Z) : Rand (Figure F) :=
  let categories := map (fun j => "Group_" ++ str j) (range 20) in
  acc <- for_each categories box_body ([], []) ;;
  let df := mkDataFrame (snd acc) (fst acc) in
  ret (px_box df (plot_title index "Box Plots (4,000 samples)")).

Definition heatmap_plot (fig : Figure F) (index : Z) : Rand (Figure F) :=
  z <- np_random_randn2 100 100 ;;
  let fig := add_trace fig (Heatmap z "RdBu_r" true) None in
  ret (update_layout fig
         (Some (plot_title index "Heatmap (10,000 cells)")) None None).

Definition pie_plot (fig : Figure F) (index : Z) : Rand (Figure F) :=
  let labels := map (fun j => "Slice_" ++ zfill 2 j) (range 25) in
  values <- np_random_exponential (of_int 10) 25 ;;
  let fig := add_trace fig (Pie labels values "none" "label+percent") None in
  ret (update_layout fig
         (Some (plot_title index "Pie Chart (25 slices)")) None None).

Definition violin_body (cat : ascii) (acc : Columns) : Rand Columns :=
  samples <- np_random_normal (of_int (ord cat - ord "C")) (of_int 1) 1000 ;;
  ret (extend_columns acc (String cat EmptyString) samples).

Definition violin_plot (index : Z) : Rand (Figure F) :=
  let categories := ["A"; "B"; "C"; "D"; "E"]%char in
  acc <- for_each categories violin_body ([], []) ;;
  let df := mkDataFrame (snd acc) (fst acc) in
  ret (px_violin df (plot_title index "Violin Plots (5,000 samples)")).

Definition area_series (i : Z) (y_data : list (list F)) : Rand (list (list F)) :=
  steps <- np_random_randn 500 ;;
  ret (y_data ++ [add_int (np_cumsum steps) (i * 10)])%list.

(** [enumerate(l)] *)
Definition enumerate {A} (l : list A) : list (Z * A) :=
  combine (range (Z.of_nat (List.length l))) l.

Definition area_trace (x : list F) (fig : Figure F) (iy : Z * list F)
  : Figure F :=
  let (i, y) := iy in
  add_trace fig
    (Scatter x y "lines" ("Series " ++ str (i + 1)) None
             (Some (if 0 <? i then "tonexty" else "tozeroy")))
    None.

Definition area_plot (fig : Figure F) (index : Z) : Rand (Figure F) :=
  let x := np_linspace (of_int 0) (of_int 10) 500 in
  y_data <- for_each (range 5) area_series [] ;;
  let fig := fold_left (area_trace x) (enumerate y_data) fig in
  ret (update_layout fig
         (Some (plot_title index "Area Chart (2,500 points)")) None None).

Definition funnel_plot (fig : Figure F) (index : Z) : Rand (Figure F) :=
  let stages := map (fun j => "Stage_" ++ zfill 2 j) (range 15) in
  e <- np_random_exponential (of_int 100) 15 ;;
  let values := List.rev (np_sort e) in
  let fig := add_trace fig (Funnel stages values "value+percent initial") None in
  ret (update_layout fig
         (Some (plot_title index "Funnel Chart (15 stages)")) None None).

(** A branch that ran to its [return fig]. *)
Definition returns (m : Rand (Figure F)) : St -> (exn + Figure F) * St :=
  fun st => let (fig, st') := m st in (inr fig, st').

(** [generate_plot(plot_type, index)]: the figure or the exception, and
    the generator state left behind.  The title is formatted with [str],
    that is with no limit on the digits of [index + 1]. *)
Definition generate_plot (plot_type : string) (index : Z)
  : St -> (exn + Figure F) * St :=
  let fig : Figure F :=
    if str_in plot_type ["scatter"; "line"; "bar"] then
      make_subplots 2 2
        (map (fun i => py_title plot_type ++ " " ++ str (i + 1)) (range 4))
        false false
    else go_Figure in
  if String.eqb plot_type "scatter" then returns (scatter_plot fig index)
  else if String.eqb plot_type "line" then returns (line_plot fig index)
  else if String.eqb plot_type "bar" then returns (bar_plot fig index)
  else if String.eqb plot_type "histogram" then returns (histogram_plot fig index)
  else if String.eqb plot_type "box" then returns (box_plot index)
  else if String.eqb plot_type "heatmap" then returns (heatmap_plot fig index)
  else if String.eqb plot_type "pie" then returns (pie_plot fig index)
  else if String.eqb plot_type "violin" then returns (violin_plot index)
  else if String.eqb plot_type "area" then returns (area_plot fig index)
  else if String.eqb plot_type "funnel" then returns (funnel_plot fig index)
  else fun st => (inl (ValueError ("Unknown plot type: " ++ plot_type)), st).

(** [generate_plot] under the default limit of 4300 digits.  In every
    branch the one integer of unbounded size that is formatted is
    [index + 1], in the title, after the draws of the branch and before
    the figure is returned: there the call raises the [ValueError] of
    the conversion when [index + 1] has too many digits, with the draws
    made, and otherwise goes on as [generate_plot]. *)
Definition generate_plot_limited (plot_type : string) (index : Z)
  : St -> (exn + Figure F) * St :=
  fun st =>
    match generate_plot plot_type index st with
    | (inr fig, st') =>
        match int_to_text (index + 1) with
        | inl e => (inl e, st')
        | inr _ => (inr fig, st')
        end
    | (inl e, st') => (inl e, st')
    end.

(** ** The driver *)

(** What the process does to the outside, in order. *)
Inductive Event : Type :=
| Getenv (name : string)
| Show (fig : Figure F)
| Print (text : string).

(** The process: its environment variables, the generator, and the log
    of what it did so far. *)
Record World : Type := mkWorld {
  environ : list (string * ustr);
  rng : St;
  events : list Event
}.

Definition emit (e : Event) (w : World) : World :=
  mkWorld (environ w) (rng w) (events w ++ [e])%list.

Fixpoint lookup_env (name : string) (env : list (string * ustr))
  : option ustr :=
  match env with
  | [] => None
  | (k, v) :: env' => if String.eqb k name then Some v else lookup_env name env'
  end.

(** [os.getenv(name, default)] *)
Definition os_getenv (name : string) (default : ustr) (w : World)
  : ustr * World :=
  (match lookup_env name (environ w) with
   | Some v => v
   | None => default
   end, emit (Getenv name) w).

(** [get_plot_count()] *)
Definition get_plot_count (w : World) : (exn + Z) * World :=
  let (s, w') := os_getenv "PLOT_COUNT" (codes "4") w in
  (py_int s, w').

(** [PLOT_TYPES[k]] for [0 <= k]; out of range raises [IndexError],
    which the driver's index never is. *)
Definition plot_type_at (k : Z) : string :=
  nth (Z.to_nat k) PLOT_TYPES "".

(** One iteration of the driver's loop. *)
Definition driver_step (show_progress : bool) (i : Z) (w : World)
  : (exn + unit) * World :=
  let plot_type := plot_type_at (i mod Z.of_nat (List.length PLOT_TYPES)) in
  match generate_plot plot_type i (rng w) with
  | (inl e, st) => (inl e, mkWorld (environ w) st (events w))
  | (inr fig, st) =>
      let w := emit (Show fig) (mkWorld (environ w) st (events w)) in
      if (show_progress && ((i + 1) mod 10 =? 0)%Z)%bool then
        (inr tt,
         emit (Print (String "010" ("--- " ++ str (i + 1)
                        ++ " plots generated ---" ++ String "010" ""))) w)
      else (inr tt, w)
  end.

(** The loop over [range(num_plots)]; an exception ends it. *)
Fixpoint driver_loop (show_progress : bool) (l : list Z) (w : World)
  : (exn + unit) * World :=
  match l with
  | [] => (inr tt, w)
  | i :: l' =>
      match driver_step show_progress i w with
      | (inl e, w') => (inl e, w')
      | (inr _, w') => driver_loop show_progress l' w'
      end
  end.

(** [generate_plots(num_plots, show_progress)]; [None] is the default
    argument. *)
Definition generate_plots (num_plots : option Z) (show_progress : bool)
    (w : World) : (exn + unit) * World :=
  match num_plots with
  | Some n => driver_loop show_progress (range n) w
  | None =>
      match get_plot_count w with
      | (inl e, w') => (inl e, w')
      | (inr n, w') => driver_loop show_progress (range n) w'
      end
  end.

End Synthesizer.

(** ** Observations on figures and logs *)

(** Run lengths of a column: each value with the number of consecutive
    rows that carry it. *)
Fixpoint run_lengths (l : list string) : list (string * nat) :=
  match l with
  | [] => []
  | c :: l' =>
      match run_lengths l' with
      | (c', n) :: r => if String.eqb c c' then (c, S n) :: r
                        else (c, 1%nat) :: (c', n) :: r
      | [] => [(c, 1%nat)]
      end
  end.

(** The kind of a trace and the sizes of the data it carries. *)
Inductive Shape : Type :=
| ScatterglShape (nx ny ncolor : nat)
| ScatterShape (nx ny : nat)
| BarShape (ncategories nvalues : nat)
| HistogramShape (nsamples : nat) (nbins : Z)
| BoxShape (groups : list (string * nat)) (nvalues : nat)
| HeatmapShape (row_lengths : list nat)
| PieShape (nlabels nvalues : nat)
| ViolinShape (groups : list (string * nat)) (nvalues : nat)
| FunnelShape (nstages nvalues : nat).

Definition trace_shape {F} (tr : Trace F) : Shape :=
  match tr with
  | Scattergl x y _ m _ _ =>
      ScatterglShape (List.length x) (List.length y)
                     (List.length (marker_color m))
  | Scatter x y _ _ _ _ => ScatterShape (List.length x) (List.length y)
  | Bar x y _ => BarShape (List.length x) (List.length y)
  | Histogram x nbinsx _ _ => HistogramShape (List.length x) nbinsx
  | Box x y => BoxShape (run_lengths x) (List.length y)
  | Heatmap z _ _ => HeatmapShape (map (@List.length F) z)
  | Pie labels values _ _ => PieShape (List.length labels) (List.length values)
  | Violin x y => ViolinShape (run_lengths x) (List.length y)
  | Funnel y x _ => FunnelShape (List.length y) (List.length x)
  end.

Definition shapes {F} (fig : Figure F) : list Shape :=
  map (fun p => trace_shape (fst p)) (data fig).

(** The grid cells of the traces of a figure, in insertion order. *)
Definition cells {F} (fig : Figure F) : list (option (Z * Z)) :=
  map snd (data fig).

(** The observations above on the outcome of [generate_plot]; [None]
    when it raised. *)
Definition result_shapes {F St} (r : (exn + Figure F) * St)
  : option (list Shape) :=
  match fst r with
  | inr fig => Some (shapes fig)
  | inl _ => None
  end.

Definition result_cells {F St} (r : (exn + Figure F) * St)
  : option (list (option (Z * Z))) :=
  match fst r with
  | inr fig => Some (cells fig)
  | inl _ => None
  end.

(** The cell of series [s] of a 2x2 grid figure, as the design states
    it: [c = s % 4], row [c // 2 + 1], column [c % 2 + 1]. *)
Definition grid_cell (s : Z) : Z * Z :=
  let c := s mod 4 in (c / 2 + 1, c mod 2 + 1).

(** The x and y arrays of a scatter trace. *)
Definition scatter_xy {F} (tr : Trace F) : option (list F * list F) :=
  match tr with
  | Scattergl x y _ _ _ _ => Some (x, y)
  | Scatter x y _ _ _ _ => Some (x, y)
  | _ => None
  end.

(** A log entry without the figure it carries. *)
Inductive Mark : Type :=
| Read (name : string)
| Shown
| Printed (text : string).

Definition mark {F} (e : @Event F) : Mark :=
  match e with
  | Getenv name => Read name
  | Show _ => Shown
  | Print text => Printed text
  end.

Definition is_printed (m : Mark) : bool :=
  match m with Printed _ => true | _ => false end.

(** The figures handed to the display sink, in order. *)
Fixpoint shown {F} (log : list (@Event F)) : list (Figure F) :=
  match log with
  | [] => []
  | Show fig :: log' => fig :: shown log'
  | _ :: log' => shown log'
  end.

(** The text of the progress line after [k] plots. *)
Definition progress_text (k : Z) : string :=
  String "010" ("--- " ++ str k ++ " plots generated ---" ++ String "010" "").

(** What one iteration of the driver is expected to log: the figure,
    then a progress line when progress is on and the plot's 1-based
    position is a multiple of 10. *)
Definition step_marks (show_progress : bool) (i : Z) : list Mark :=
  Shown ::
  (if (show_progress && ((i + 1) mod 10 =? 0)%Z)%bool
   then [Printed (progress_text (i + 1))] else []).

(** The round-robin job list of a run of [n] plots. *)
Definition round_robin (l : list Z) : list (string * Z) :=
  map (fun i => (nth (Z.to_nat (i mod 10)) PLOT_TYPES "", i)) l.

Section Reference.

Context {F St : Type} {FO : Float64 F} {RG : BitGen F St}.

(** The figures obtained by synthesizing a list of (tag, index) jobs one
    after the other on one generator. *)
Fixpoint synthesize_all (jobs : list (string * Z)) (st : St)
  : list (Figure F) :=
  match jobs with
  | [] => []
  | (tag, i) :: jobs' =>
      match generate_plot tag i st with
      | (inr fig, st') => fig :: synthesize_all jobs' st'
      | (inl _, _) => []
      end
  end.

(** The generator state after [n] successive draws of one sampler. *)
Definition after_draws {A} (sample : Rand (St := St) A) (n : nat) (st : St)
  : St :=
  snd (replicateM n sample st).

(** The generator state series [i] of the scatter figure is to start
    from: the state of the call after the 3 x 1000 gaussian draws of
    each of the [i] series before it. *)
Definition scatter_rng_at (i : Z) (st : St) : St :=
  after_draws (legacy_gauss (F := F)) (Z.to_nat i * (3 * 1000)) st.

(** Three successive samples of 1000 gaussian draws from a state. *)
Definition three_samples (s0 : St) : list F * list F * list F :=
  let (gx, s1) := np_random_randn 1000 s0 in
  let (gy, s2) := np_random_randn 1000 s1 in
  let (colors, _) := np_random_randn 1000 s2 in
  (gx, gy, colors).

(** The three arrays series [i] draws, from the state it starts in. *)
Definition scatter_draws (i : Z) (st : St) : list F * list F * list F :=
  three_samples (scatter_rng_at i st).

(** Series [i] of the scatter figure as the specification's table words
    it: the gaussian sample moved by (i % 10, i // 10). *)
Definition scatter_xy_as_specified (i : Z) (st : St) : list F * list F :=
  let '(gx, gy, _) := scatter_draws i st in
  (add_int gx (i mod 10), add_int gy (i / 10)).

(** Series [i] with the offsets doubled. *)
Definition scatter_xy_doubled (i : Z) (st : St) : list F * list F :=
  let '(gx, gy, _) := scatter_draws i st in
  (add_int gx (2 * (i mod 10)), add_int gy (2 * (i / 10))).

(** [series_xy fig i]: the x and y arrays of trace [i] of a figure. *)
Definition series_xy (fig : Figure F) (i : nat) : option (list F * list F) :=
  match nth_error (data fig) i with
  | Some (tr, _) => scatter_xy tr
  | None => None
  end.

End Reference.

(** ** An integer instance for evaluation

    Integers stand in for doubles and a linear congruential generator
    for numpy's; the generic statements below do not depend on it. *)
Module ZModel.

Definition lcg (s : Z) : Z := (s * 1103515245 + 12345) mod 2147483648.

#[export] Instance float_Z : Float64 Z := {|
  of_int := fun z => z;
  fadd := Z.add;
  fsub := Z.sub;
  fmul := Z.mul;
  fdiv := Z.div;
  fneg := Z.opp;
  fsin := fun x => x mod 3 - 1;
  fexp := fun x => 2 ^ x;
  np_pi := 3;
  fle := Z.leb
|}.

#[export] Instance lcg_Z : BitGen Z Z := {|
  legacy_gauss := fun s => let s' := lcg s in ((s' / 65536) mod 9 - 4, s');
  legacy_standard_exponential :=
    fun s => let s' := lcg s in ((s' / 65536) mod 50, s');
  next_double := fun s => let s' := lcg s in ((s' / 65536) mod 2, s')
|}.

(** [np.random.seed(42)] *)
Definition seeded : Z := 42.

Definition world0 (env : list (string * ustr)) : @World Z Z :=
  mkWorld env seeded [].

End ZModel.

(** ** Further observations *)

(** A trace placed at [cell] fits a figure with grid [g]: inside the
    grid when there is one, and without a cell when there is none. *)
Definition cell_fits (g : option Subplots) (cell : option (Z * Z)) : Prop :=
  match g, cell with
  | Some sp, Some (r, c) =>
      1 <= r <= grid_rows sp /\ 1 <= c <= grid_cols sp
  | None, None => True
  | _, _ => False
  end.

(** How many traces of a list of cells sit at (row, col). *)
Definition traces_at (row col : Z) (cs : list (option (Z * Z))) : nat :=
  List.length
    (filter (fun o => match o with
                      | Some (r, c) => ((r =? row) && (c =? col))%bool
                      | None => false
                      end) cs).

(** The name of a trace, for the kinds that carry one. *)
Definition trace_name {F} (tr : Trace F) : option string :=
  match tr with
  | Scattergl _ _ _ _ name _ => Some name
  | Scatter _ _ _ name _ _ => Some name
  | Bar _ _ name => Some name
  | Histogram _ _ name _ => Some name
  | _ => None
  end.

(** The fill mode of a line trace. *)
Definition trace_fill {F} (tr : Trace F) : option string :=
  match tr with
  | Scatter _ _ _ _ _ fill => fill
  | _ => None
  end.

(** The marker of a WebGL scatter trace. *)
Definition trace_marker {F} (tr : Trace F) : option (Marker F) :=
  match tr with
  | Scattergl _ _ _ m _ _ => Some m
  | _ => None
  end.

(** The title of the figure [generate_plot] returned, if it returned. *)
Definition result_title {F St} (r : (exn + Figure F) * St) : option string :=
  match fst r with
  | inr fig => title (layout fig)
  | inl _ => None
  end.

(** The grid of the figure [generate_plot] returned, if it returned. *)
Definition result_grid {F St} (r : (exn + Figure F) * St)
  : option (option Subplots) :=
  match fst r with
  | inr fig => Some (grid fig)
  | inl _ => None
  end.

(** The layout of the figure [generate_plot] returned, if it returned. *)
Definition result_layout {F St} (r : (exn + Figure F) * St) : option Layout :=
  match fst r with
  | inr fig => Some (layout fig)
  | inl _ => None
  end.

(** The number of data items a trace of a given shape draws: points,
    bars, samples, cells, slices or stages. *)
Definition shape_items (sh : Shape) : Z :=
  match sh with
  | ScatterglShape nx _ _ => Z.of_nat nx
  | ScatterShape nx _ => Z.of_nat nx
  | BarShape _ n => Z.of_nat n
  | HistogramShape n _ => Z.of_nat n
  | BoxShape _ n => Z.of_nat n
  | HeatmapShape rows => Z.of_nat (list_sum rows)
  | PieShape _ n => Z.of_nat n
  | ViolinShape _ n => Z.of_nat n
  | FunnelShape _ n => Z.of_nat n
  end.

(** The data volume of the figure [generate_plot] returned. *)
Definition result_items {F St} (r : (exn + Figure F) * St) : option Z :=
  option_map (fun shs => fold_right Z.add 0 (map shape_items shs))
             (result_shapes r).

(** Per tag: the description in the title, the data volume it
    announces, and the legend and bar-mode options of the layout. *)
Definition announced : list (string * (string * Z * option bool * option string)) :=
  [("scatter", ("Scatter Plots (50 traces, 50,000 points total)", 50000,
                Some false, None));
   ("line", ("Line Charts (8,000 points total)", 8000, None, None));
   ("bar", ("Bar Charts (200 bars total)", 200, Some false, None));
   ("histogram", ("Histogram (6,000 samples)", 6000, None, Some "overlay"));
   ("box", ("Box Plots (4,000 samples)", 4000, None, None));
   ("heatmap", ("Heatmap (10,000 cells)", 10000, None, None));
   ("pie", ("Pie Chart (25 slices)", 25, None, None));
   ("violin", ("Violin Plots (5,000 samples)", 5000, None, None));
   ("area", ("Area Chart (2,500 points)", 2500, None, None));
   ("funnel", ("Funnel Chart (15 stages)", 15, None, None))].

Definition not_printed (m : Mark) : bool := negb (is_printed m).

Section Consumption.

Context {F St : Type} {FO : Float64 F} {RG : BitGen F St}.

(** The generator state after one category of the box branch: one
    uniform draw, then 200 gaussian draws. *)
Definition after_box_category (st : St) : St :=
  after_draws (legacy_gauss (F := F)) 200 (snd (next_double (F := F) st)).

(** The samples of the violin branch for the category at distance [k]
    from "C": 1000 gaussian draws scaled by 1 and moved by [k]. *)
Definition violin_samples (k : Z) (st : St) : list F * St :=
  replicateM 1000
    (fun s => let (g, s') := legacy_gauss s in
              (fadd (of_int k) (fmul (of_int 1) g), s')) st.

(** The value column of the violin data frame, category after
    category, from offset -2 to +2. *)
Definition violin_values (st : St) : list F :=
  let (a, s1) := violin_samples (-2) st in
  let (b, s2) := violin_samples (-1) s1 in
  let (c, s3) := violin_samples 0 s2 in
  let (d, s4) := violin_samples 1 s3 in
  let (e, _) := violin_samples 2 s4 in
  (a ++ b ++ c ++ d ++ e)%list.

End Consumption.

(** * Properties *)

(** ** Decimal text of integers *)

(** The value of a digit sequence read left to right from [acc]. *)
Fixpoint uint_value (acc : Z) (d : Decimal.uint) : Z :=
  match d with
  | Decimal.Nil => acc
  | Decimal.D0 d' => uint_value (10 * acc + 0) d'
  | Decimal.D1 d' => uint_value (10 * acc + 1) d'
  | Decimal.D2 d' => uint_value (10 * acc + 2) d'
  | Decimal.D3 d' => uint_value (10 * acc + 3) d'
  | Decimal.D4 d' => uint_value (10 * acc + 4) d'
  | Decimal.D5 d' => uint_value (10 * acc + 5) d'
  | Decimal.D6 d' => uint_value (10 * acc + 6) d'
  | Decimal.D7 d' => uint_value (10 * acc + 7) d'
  | Decimal.D8 d' => uint_value (10 * acc + 8) d'
  | Decimal.D9 d' => uint_value (10 * acc + 9) d'
  end.

Lemma uint_value_pos (d : Decimal.uint) :
  forall acc : positive,
    uint_value (Zpos acc) d = Zpos (Pos.of_uint_acc d acc).
Proof.
  induction d; intros acc; cbn [uint_value Pos.of_uint_acc];
    try reflexivity; rewrite <- IHd; f_equal; lia.
Qed.

Lemma uint_value_zero (d : Decimal.uint) :
  uint_value 0 d = Z.of_N (Pos.of_uint d).
Proof.
  induction d; cbn [uint_value Pos.of_uint]; try reflexivity;
    try assumption;
    match goal with
    | |- uint_value ?k _ = _ =>
        let p := eval cbv in k in change k with p
    end; rewrite uint_value_pos; reflexivity.
Qed.

Lemma to_uint_not_nil (p : positive) : Pos.to_uint p <> Decimal.Nil.
Proof.
  intro E. pose proof (DecimalPos.Unsigned.of_to p) as R.
  rewrite E in R. discriminate R.
Qed.

Lemma uint_value_to_uint (p : positive) :
  uint_value 0 (Pos.to_uint p) = Zpos p.
Proof.
  rewrite uint_value_zero, DecimalPos.Unsigned.of_to. reflexivity.
Qed.

Lemma codes_length (s : string) :
  List.length (codes s) = String.length s.
Proof.
  unfold codes. rewrite length_map.
  induction s as [| c s IH]; [reflexivity |].
  cbn [list_ascii_of_string List.length String.length]. rewrite IH.
  reflexivity.
Qed.

Lemma scan_string_of_uint (d : Decimal.uint) :
  forall acc count,
    scan_digits acc count (codes (NilEmpty.string_of_uint d))
    = Some (uint_value acc d,
            count + Z.of_nat (String.length (NilEmpty.string_of_uint d)),
            []).
Proof.
  induction d; intros acc count;
    cbn [NilEmpty.string_of_uint codes list_ascii_of_string map
         String.length uint_value];
    [cbn [scan_digits]; rewrite Z.add_0_r; reflexivity | ..];
    fold (codes (NilEmpty.string_of_uint d));
    cbn [scan_digits];
    match goal with
    | |- context [is_digit_code ?c] =>
        change (is_digit_code c) with true; cbv iota;
        match goal with
        | |- context [digit_of c] =>
            let v := eval vm_compute in (digit_of c) in
            change (digit_of c) with v
        end
    end;
    rewrite IHd, Nat2Z.inj_succ, <- Z.add_assoc, Z.add_1_l; reflexivity.
Qed.

Lemma digits_stay_ascii (d : Decimal.uint) :
  map to_ascii (codes (NilEmpty.string_of_uint d))
  = codes (NilEmpty.string_of_uint d).
Proof.
  induction d;
    cbn [NilEmpty.string_of_uint codes list_ascii_of_string map];
    [reflexivity | ..];
    fold (codes (NilEmpty.string_of_uint d)); rewrite IHd; reflexivity.
Qed.

Lemma string_of_uint_head (d : Decimal.uint) :
  d <> Decimal.Nil ->
  exists c r,
    codes (NilEmpty.string_of_uint d) = c :: r /\ is_digit_code c = true.
Proof.
  destruct d; intros NN; [congruence | ..];
    cbn [NilEmpty.string_of_uint codes list_ascii_of_string map];
    eexists; eexists; split; reflexivity.
Qed.

(** ** [int()] against the grammar of integer literals *)

Ltac n_cases :=
  unfold is_digit_code, c_isspace in *;
  repeat match goal with
         | |- context [(?a <=? ?b)%N] => destruct (N.leb_spec a b)
         | |- context [(?a =? ?b)%N] => destruct (N.eqb_spec a b)
         | H : context [(?a <=? ?b)%N] |- _ => destruct (N.leb_spec a b)
         | H : context [(?a =? ?b)%N] |- _ => destruct (N.eqb_spec a b)
         end;
  cbn [andb orb] in *; try discriminate; try reflexivity; try lia.

Lemma digit_is_no_space (c : N) :
  is_digit_code c = true ->
  c_isspace c = false /\ (c =? 43)%N = false /\ (c =? 45)%N = false /\
  (c =? 95)%N = false.
Proof. intros D. repeat split; n_cases. Qed.

Lemma space_is_no_digit (c : N) :
  c_isspace c = true -> is_digit_code c = false /\ (c =? 95)%N = false.
Proof. intros S. split; n_cases. Qed.

Lemma skip_spaces_split (l : list N) :
  exists pre, l = (pre ++ skip_spaces l)%list /\
              forallb c_isspace pre = true.
Proof.
  induction l as [| c l (pre & E & P)]; [exists []; split; reflexivity |].
  cbn [skip_spaces]. destruct (c_isspace c) eqn:S.
  - exists (c :: pre). cbn [app forallb]. rewrite S, P, <- E.
    split; reflexivity.
  - exists []. split; reflexivity.
Qed.

Lemma skip_spaces_head (l : list N) (c : N) (r : list N) :
  skip_spaces l = c :: r -> c_isspace c = false.
Proof.
  induction l as [| a l IH]; [discriminate |].
  cbn [skip_spaces]. destruct (c_isspace a) eqn:S; [exact IH |].
  intros E. injection E as <- _. exact S.
Qed.

Lemma skip_spaces_all (l : list N) :
  skip_spaces l = [] <-> forallb c_isspace l = true.
Proof.
  induction l as [| a l IH]; [split; reflexivity |].
  cbn [skip_spaces forallb]. destruct (c_isspace a); [exact IH |].
  split; discriminate.
Qed.

Lemma skip_spaces_app (pre l : list N) :
  forallb c_isspace pre = true ->
  skip_spaces (pre ++ l) = skip_spaces l.
Proof.
  induction pre as [| a pre IH]; [reflexivity |].
  cbn [forallb app skip_spaces]. intros H.
  apply andb_prop in H as [Ha Hp]. rewrite Ha. apply IH, Hp.
Qed.

Lemma skip_spaces_none (c : N) (l : list N) :
  c_isspace c = false -> skip_spaces (c :: l) = c :: l.
Proof. intros S. cbn [skip_spaces]. rewrite S. reflexivity. Qed.

(** The scanner reads every [run_tail], up to the white space after it. *)
Lemma scan_run_tail (r : list N) :
  run_tail r ->
  forall post acc count,
    forallb c_isspace post = true ->
    scan_digits acc count (r ++ post)
    = Some (fold_left (fun a c => 10 * a + digit_of c)
                      (filter is_digit_code r) acc,
            count + count_digits r, post).
Proof.
  unfold count_digits.
  induction 1 as [| d r D T IH | d r D T IH]; intros post acc count P.
  - cbn [app filter fold_left List.length]. rewrite Z.add_0_r.
    destruct post as [| c post]; [reflexivity |].
    cbn [forallb] in P. apply andb_prop in P as [Pc _].
    destruct (space_is_no_digit c Pc) as [ND NU].
    cbn [scan_digits]. rewrite ND, NU. reflexivity.
  - cbn [app scan_digits filter]. rewrite D. cbn [fold_left List.length].
    rewrite (IH post _ _ P), Nat2Z.inj_succ, <- Z.add_assoc, Z.add_1_l.
    reflexivity.
  - cbn [app scan_digits filter].
    change (is_digit_code 95) with false. change (95 =? 95)%N with true.
    cbv iota. rewrite D. cbn [fold_left List.length].
    rewrite (IH post _ _ P), Nat2Z.inj_succ, <- Z.add_assoc, Z.add_1_l.
    reflexivity.
Qed.

(** What the scanner read is a [run_tail]. *)
Lemma scan_sound (n : nat) :
  forall l acc count v k rest,
    (List.length l <= n)%nat ->
    scan_digits acc count l = Some (v, k, rest) ->
    exists r,
      l = (r ++ rest)%list /\ run_tail r /\
      v = fold_left (fun a c => 10 * a + digit_of c)
                    (filter is_digit_code r) acc /\
      k = count + count_digits r.
Proof.
  unfold count_digits.
  induction n as [| n IH]; intros [| c l] acc count v k rest L S;
    cbn [List.length] in L; try lia.
  - injection S as <- <- <-. exists []. cbn. repeat split; [constructor | lia].
  - injection S as <- <- <-. exists []. cbn. repeat split; [constructor | lia].
  - cbn [scan_digits] in S. destruct (is_digit_code c) eqn:D.
    + destruct (IH l _ _ v k rest ltac:(lia) S) as (r & E & T & V & K).
      exists (c :: r). cbn [app filter]. rewrite D.
      cbn [fold_left List.length]. rewrite Nat2Z.inj_succ.
      repeat split; [congruence | constructor; assumption | exact V | lia].
    + destruct (N.eqb_spec c 95) as [-> | NU].
      * destruct l as [| d l]; [discriminate S |].
        destruct (is_digit_code d) eqn:Dd; [| discriminate S].
        cbn [List.length] in L.
        destruct (IH l _ _ v k rest ltac:(lia) S) as (r & E & T & V & K).
        exists (95%N :: d :: r). cbn [app filter].
        change (is_digit_code 95) with false. cbv iota. rewrite Dd.
        cbn [fold_left List.length]. rewrite Nat2Z.inj_succ.
        repeat split;
          [congruence | constructor; assumption | exact V | lia].
      * injection S as <- <- <-. exists []. cbn.
        repeat split; [constructor | lia].
Qed.

(** [int(s)] returns [n] exactly when [s] is an integer literal of [n]
    with at most 4300 digits. *)
Lemma py_int_spec (s : ustr) (n : Z) :
  py_int s = inr n <->
  exists k, int_literal s n k /\ k <= int_max_str_digits.
Proof.
  unfold py_int, int_literal, decimal_value. split.
  - destruct (skip_spaces_split (map to_ascii s)) as (pre & E & P).
    destruct (skip_spaces (map to_ascii s)) as [| c r0] eqn:SK;
      [discriminate |].
    pose proof (skip_spaces_head _ _ _ SK) as NS.
    set (sb := if (c =? 43)%N then (false, r0)
               else if (c =? 45)%N then (true, r0) else (false, c :: r0)).
    assert (SB : exists sign,
               c :: r0 = (sign ++ snd sb)%list /\
               (fst sb = false /\ (sign = [] \/ sign = [43%N]) \/
                fst sb = true /\ sign = [45%N])).
    { subst sb. destruct (N.eqb_spec c 43) as [-> | N1].
      - exists [43%N]. cbn. auto.
      - destruct (N.eqb_spec c 45) as [-> | N2].
        + exists [45%N]. cbn. auto.
        + exists []. cbn. auto. }
    destruct sb as [negative body]. cbn [fst snd] in SB.
    destruct SB as (sign & ES & SG).
    destruct body as [| b body']; [discriminate |].
    destruct (N.eqb_spec b 95) as [-> | NU]; [discriminate |].
    destruct (scan_digits 0 0 (b :: body')) as [[[v count] rest] |] eqn:SC;
      [| discriminate].
    destruct (Z.eqb_spec count 0) as [-> | NZ]; [discriminate |].
    destruct (Z.ltb_spec int_max_str_digits count) as [TM | LE];
      [discriminate |].
    destruct (skip_spaces rest) as [| x xs] eqn:SR; [| discriminate].
    intros R. injection R as <-.
    destruct (scan_sound _ _ _ _ _ _ _ (le_n _) SC)
      as (r & EB & T & V & K).
    apply skip_spaces_all in SR.
    destruct T as [| d r1 D T | d r1 D T].
    + unfold count_digits in K. cbn in K. lia.
    + exists count. split; [| exact LE].
      exists pre, sign, d, r1, rest.
      rewrite E, ES, EB.
      split; [reflexivity |]. split; [exact P |]. split; [exact SR |].
      split; [exact D |]. split; [exact T |]. split; [lia |].
      destruct SG as [[-> SG] | [-> SG]]; [left | right];
        split; congruence.
    + cbn [app] in EB. injection EB as -> _. congruence.
  - intros (k & (pre & sign & d & r & post & E & P & Q & D & T & K & SG) & LE).
    rewrite E, (skip_spaces_app pre _ P).
    destruct (digit_is_no_space d D) as (NS & N1 & N2 & NU).
    assert (SC : scan_digits 0 0 ((d :: r) ++ post)%list
                 = Some (fold_left (fun a c => 10 * a + digit_of c)
                                   (filter is_digit_code (d :: r)) 0,
                         0 + count_digits (d :: r), post))
      by (apply scan_run_tail; [constructor; assumption | exact Q]).
    assert (CP : 0 + count_digits (d :: r) <> 0).
    { unfold count_digits. cbn [filter]. rewrite D.
      cbn [List.length]. lia. }
    assert (RUN : forall negative,
               match ((d :: r) ++ post)%list with
               | c :: _ =>
                   if (c =? 95)%N then inl (invalid_literal s) else
                     match scan_digits 0 0 ((d :: r) ++ post)%list with
                     | None => inl (invalid_literal s)
                     | Some (v, count, rest) =>
                         if count =? 0 then inl (invalid_literal s)
                         else if int_max_str_digits <? count
                              then inl (too_many_digits count)
                         else match skip_spaces rest with
                              | [] => inr (if negative : bool then - v else v)
                              | _ :: _ => inl (invalid_literal s)
                              end
                     end
               | [] => inl (invalid_literal s)
               end
               = inr (if negative
                      then - fold_left (fun a c => 10 * a + digit_of c)
                               (filter is_digit_code (d :: r)) 0
                      else fold_left (fun a c => 10 * a + digit_of c)
                             (filter is_digit_code (d :: r)) 0)).
    { intros negative. rewrite SC. cbn [app]. rewrite NU.
      destruct (Z.eqb_spec (0 + count_digits (d :: r)) 0); [contradiction |].
      destruct (Z.ltb_spec int_max_str_digits (0 + count_digits (d :: r)));
        [lia |].
      rewrite (proj2 (skip_spaces_all post) Q). reflexivity. }
    destruct SG as [[[-> | ->] ->] | [-> ->]].
    + cbn [app]. rewrite (skip_spaces_none d _ NS), N1, N2.
      exact (RUN false).
    + cbn [app]. rewrite skip_spaces_none by reflexivity.
      change (43 =? 43)%N with true. cbv iota. exact (RUN false).
    + cbn [app]. rewrite skip_spaces_none by reflexivity.
      change (45 =? 43)%N with false. change (45 =? 45)%N with true.
      cbv iota. exact (RUN true).
Qed.

(** Reading back the decimal text of an integer of at most 4300 digits
    gives the integer; a longer text is refused. *)
Lemma py_int_str (n : Z) :
  py_int (codes (str n))
  = if int_max_str_digits <? decimal_digits n
    then inl (too_many_digits (decimal_digits n))
    else inr n.
Proof.
  unfold decimal_digits.
  destruct n as [| p | p]; [reflexivity | |]; cbn [Z.abs str];
    destruct (string_of_uint_head (Pos.to_uint p) (to_uint_not_nil p))
      as (c & r & EC & D);
    destruct (digit_is_no_space c D) as (NS & N1 & N2 & NU);
    pose proof (scan_string_of_uint (Pos.to_uint p) 0 0) as SC;
    assert (LP : 0 + Z.of_nat (String.length
                                 (NilEmpty.string_of_uint (Pos.to_uint p)))
                 <> 0)
      by (rewrite <- codes_length, EC; cbn [List.length]; lia);
    unfold py_int.
  - rewrite digits_stay_ascii. rewrite EC in *.
    rewrite (skip_spaces_none c r NS), N1, N2, NU, SC.
    destruct (Z.eqb_spec (0 + Z.of_nat (String.length
                (NilEmpty.string_of_uint (Pos.to_uint p)))) 0);
      [contradiction |].
    rewrite Z.add_0_l.
    destruct (Z.ltb_spec int_max_str_digits
                (Z.of_nat (String.length
                   (NilEmpty.string_of_uint (Pos.to_uint p)))));
      [reflexivity |].
    cbn [skip_spaces]. rewrite uint_value_to_uint. reflexivity.
  - unfold codes. cbn [append list_ascii_of_string map].
    fold (codes (NilEmpty.string_of_uint (Pos.to_uint p))).
    rewrite digits_stay_ascii.
    change (to_ascii (N_of_ascii "-")) with 45%N.
    rewrite skip_spaces_none by reflexivity.
    change (45 =? 43)%N with false. change (45 =? 45)%N with true.
    cbv iota. rewrite EC in *. rewrite NU, SC.
    destruct (Z.eqb_spec (0 + Z.of_nat (String.length
                (NilEmpty.string_of_uint (Pos.to_uint p)))) 0);
      [contradiction |].
    rewrite Z.add_0_l.
    destruct (Z.ltb_spec int_max_str_digits
                (Z.of_nat (String.length
                   (NilEmpty.string_of_uint (Pos.to_uint p)))));
      [reflexivity |].
    cbn [skip_spaces]. rewrite uint_value_to_uint. reflexivity.
Qed.

Lemma str_injective (a b : Z) : str a = str b -> a = b.
Proof.
  assert (POS : forall p, scan_digits 0 0 (codes (str (Zpos p)))
                          = Some (Zpos p,
                                  0 + Z.of_nat (String.length (str (Zpos p))),
                                  [])).
  { intros p. cbn [str]. rewrite scan_string_of_uint, uint_value_to_uint.
    reflexivity. }
  assert (NEG : forall p, exists l, scan_digits 0 0 (codes (str (Zneg p)))
                                    = Some (0, 0, 45%N :: l)).
  { intros p. eexists. reflexivity. }
  intros E. apply (f_equal (fun s => scan_digits 0 0 (codes s))) in E.
  destruct a as [| p | p], b as [| q | q]; try reflexivity.
  - rewrite POS in E. discriminate E.
  - destruct (NEG q) as [l Q]. rewrite Q in E. discriminate E.
  - rewrite POS in E. discriminate E.
  - rewrite !POS in E. injection E as E _. congruence.
  - destruct (NEG q) as [l Q]. rewrite POS, Q in E. discriminate E.
  - destruct (NEG p) as [l Q]. rewrite Q in E. discriminate E.
  - destruct (NEG p) as [l Q]. rewrite POS, Q in E. discriminate E.
  - cbn [str append codes list_ascii_of_string map scan_digits] in E.
    change (is_digit_code (N_of_ascii "-")) with false in E.
    change (N_of_ascii "-" =? 95)%N with false in E. cbv iota in E.
    injection E as E. apply (f_equal (scan_digits 0 0)) in E.
    fold (codes (NilEmpty.string_of_uint (Pos.to_uint p))) in E.
    fold (codes (NilEmpty.string_of_uint (Pos.to_uint q))) in E.
    rewrite !scan_string_of_uint, !uint_value_to_uint in E.
    injection E as E _. congruence.
Qed.

Section Properties.

Context {F St : Type} {FO : Float64 F} {RG : BitGen F St}.

(** ** Draws and loops *)

Lemma replicateM_length {A} (sample : Rand (St := St) A) (n : nat) :
  forall s, List.length (fst (replicateM n sample s)) = n.
Proof.
  induction n as [| n IH]; intros s; [reflexivity |].
  cbn [replicateM]. unfold bind, ret.
  destruct (sample s) as [v s1]. specialize (IH s1).
  destruct (replicateM n sample s1) as [vs s2].
  cbn [fst List.length] in *. rewrite IH. reflexivity.
Qed.

Lemma replicateM_Forall {A} (sample : Rand (St := St) A) (P : A -> Prop) :
  (forall s, P (fst (sample s))) ->
  forall n s, Forall P (fst (replicateM n sample s)).
Proof.
  intros HP. induction n as [| n IH]; intros s; [constructor |].
  cbn [replicateM]. unfold bind, ret.
  pose proof (HP s) as Hv. destruct (sample s) as [v s1].
  specialize (IH s1). destruct (replicateM n sample s1) as [vs s2].
  constructor; assumption.
Qed.

Lemma randn_length (n : nat) (s : St) :
  List.length (fst (np_random_randn (F := F) n s)) = n.
Proof. apply replicateM_length. Qed.

Lemma normal_length (loc scale : F) (n : nat) (s : St) :
  List.length (fst (np_random_normal loc scale n s)) = n.
Proof. apply replicateM_length. Qed.

Lemma exponential_length (scale : F) (n : nat) (s : St) :
  List.length (fst (np_random_exponential scale n s)) = n.
Proof. apply replicateM_length. Qed.

Lemma randn2_shape (rows cols : nat) (s : St) :
  map (@List.length F) (fst (np_random_randn2 rows cols s))
  = repeat cols rows.
Proof.
  pose proof (replicateM_length (np_random_randn (F := F) cols) rows s) as L.
  pose proof (replicateM_Forall (np_random_randn (F := F) cols)
                (fun r => List.length r = cols)
                (randn_length cols) rows s) as A.
  unfold np_random_randn2.
  destruct (replicateM rows (np_random_randn cols) s) as [z s'].
  cbn [fst] in *. subst rows.
  induction A as [| r z Hr A IH]; [reflexivity |].
  cbn [map List.length repeat]. rewrite Hr, IH. reflexivity.
Qed.

Lemma add_int_length (a : list F) (k : Z) :
  List.length (add_int a k) = List.length a.
Proof. apply length_map. Qed.

Lemma map2_length {A B C} (f : A -> B -> C) (l1 : list A) (l2 : list B) :
  List.length (map2 f l1 l2) = Nat.min (List.length l1) (List.length l2).
Proof. unfold map2. rewrite length_map. apply length_combine. Qed.

Lemma range_length (n : Z) : List.length (range n) = Z.to_nat n.
Proof. unfold range. rewrite length_map. apply length_seq. Qed.

Lemma linspace_length (start stop : F) (num : nat) :
  List.length (np_linspace start stop num) = num.
Proof.
  destruct num as [| [| n]]; try reflexivity.
  unfold np_linspace. cbv beta iota zeta.
  rewrite length_app, removelast_firstn_len, length_firstn, length_map,
    range_length, Nat2Z.id.
  cbn [List.length]. lia.
Qed.

Lemma cumsum_from_length (l : list F) :
  forall acc, List.length (cumsum_from acc l) = List.length l.
Proof.
  induction l as [| v l IH]; intros acc; [reflexivity |].
  cbn [cumsum_from List.length]. rewrite IH. reflexivity.
Qed.

Lemma cumsum_length (a : list F) :
  List.length (np_cumsum a) = List.length a.
Proof.
  destruct a as [| v l]; [reflexivity |].
  cbn [np_cumsum List.length]. rewrite cumsum_from_length. reflexivity.
Qed.

(** A loop over [l1 ++ l2] is the loop over [l1] followed by the loop
    over [l2]. *)
Lemma for_each_app {A X} (body : A -> X -> Rand (St := St) X)
    (l1 l2 : list A) :
  forall x s,
    for_each (l1 ++ l2) body x s =
    let (x1, s1) := for_each l1 body x s in for_each l2 body x1 s1.
Proof.
  induction l1 as [| a l1 IH]; intros x s; [reflexivity |].
  cbn [for_each app]. unfold bind.
  destruct (body a x s) as [x' s']. apply IH.
Qed.

(** When every iteration appends to an observed list, so does the
    loop. *)
Lemma for_each_observed {A X O} (obs : X -> list O)
    (body : A -> X -> Rand (St := St) X) (o : A -> list O) :
  (forall a x s, obs (fst (body a x s)) = (obs x ++ o a)%list) ->
  forall l x s,
    obs (fst (for_each l body x s)) = (obs x ++ flat_map o l)%list.
Proof.
  intros Hbody. induction l as [| a l IH]; intros x s.
  - cbn [for_each flat_map]. unfold ret. cbn [fst].
    rewrite app_nil_r. reflexivity.
  - cbn [for_each flat_map]. unfold bind.
    specialize (Hbody a x s). destruct (body a x s) as [x' s'].
    cbn [fst] in Hbody. rewrite IH, Hbody, app_assoc. reflexivity.
Qed.

(** The generator state a loop leaves does not depend on the value it
    started from when no iteration's draws do. *)
Lemma for_each_state {A X Y} (body : A -> X -> Rand (St := St) X)
    (body' : A -> Y -> Rand (St := St) Y) :
  (forall a x y s, snd (body a x s) = snd (body' a y s)) ->
  forall l x y s,
    snd (for_each l body x s) = snd (for_each l body' y s).
Proof.
  intros Hbody. induction l as [| a l IH]; intros x y s; [reflexivity |].
  cbn [for_each]. unfold bind.
  specialize (Hbody a x y s).
  destruct (body a x s) as [x' s1]. destruct (body' a y s) as [y' s2].
  cbn [snd] in Hbody. subst s2. apply IH.
Qed.

(** ** The dispatch of [generate_plot] *)

Lemma returns_figure (m : Rand (St := St) (Figure F)) (st : St) :
  exists fig st', returns m st = (inr fig, st').
Proof.
  unfold returns. destruct (m st) as [fig st']. eauto.
Qed.

(** [generate_plot] either sees a catalog tag and returns a figure, or
    sees any other text and raises without drawing. *)
Lemma generate_plot_cases (t : string) (idx : Z) (st : St) :
  (In t PLOT_TYPES /\
   exists fig st', generate_plot (F := F) t idx st = (inr fig, st'))
  \/
  (~ In t PLOT_TYPES /\
   generate_plot (F := F) t idx st
   = (inl (ValueError ("Unknown plot type: " ++ t)), st)).
Proof.
  unfold generate_plot.
  repeat match goal with
  | |- context [String.eqb t ?tag] =>
      destruct (String.eqb_spec t tag) as [-> | ?];
        [left; split;
         [unfold PLOT_TYPES; cbn [In]; tauto | apply returns_figure] |]
  end.
  right. split; [| reflexivity].
  unfold PLOT_TYPES. cbn [In]. intuition congruence.
Qed.

Lemma generate_plot_catalog (t : string) (idx : Z) (st : St) :
  In t PLOT_TYPES ->
  exists fig st', generate_plot (F := F) t idx st = (inr fig, st').
Proof.
  intros I. destruct (generate_plot_cases t idx st) as [[_ R] | [N _]];
    [exact R | contradiction].
Qed.

Lemma generate_plot_limited_returns (t : string) (idx : Z) (st : St)
    (fig : Figure F) (st' : St) :
  generate_plot_limited t idx st = (inr fig, st') <->
  generate_plot t idx st = (inr fig, st') /\
  decimal_digits (idx + 1) <= 4300.
Proof.
  unfold generate_plot_limited, int_to_text, int_max_str_digits.
  destruct (generate_plot t idx st) as [[e | f] s].
  - split; [discriminate | intros [E _]; discriminate E].
  - destruct (Z.ltb_spec 4300 (decimal_digits (idx + 1))).
    + split; [discriminate | intros [_ L]; lia].
    + split; [intros E; split; [exact E | assumption] | intros [E _]; exact E].
Qed.

Lemma generate_plot_limited_raises (t : string) (idx : Z) (st : St) :
  In t PLOT_TYPES -> 4300 < decimal_digits (idx + 1) ->
  exists msg,
    fst (generate_plot_limited (F := F) t idx st) = inl (ValueError msg) /\
    msg <> "Unknown plot type: " ++ t.
Proof.
  intros I L. unfold generate_plot_limited, int_to_text, int_max_str_digits.
  destruct (generate_plot_catalog t idx st I) as (fig & st' & R).
  rewrite R. destruct (Z.ltb_spec 4300 (decimal_digits (idx + 1))); [| lia].
  eexists. split; [reflexivity |]. cbn [append]. discriminate.
Qed.

Lemma generate_plot_limited_unknown (t : string) (idx : Z) (st : St) :
  ~ In t PLOT_TYPES ->
  generate_plot_limited (F := F) t idx st
  = (inl (ValueError ("Unknown plot type: " ++ t)), st).
Proof.
  intros N. unfold generate_plot_limited.
  destruct (generate_plot_cases t idx st) as [[I _] | [_ R]];
    [contradiction |].
  rewrite R. reflexivity.
Qed.

(** C1, as the code has it.  [generate_plot] raises the
    unknown-plot-type [ValueError] exactly for the texts outside the
    ten-tag catalog.  For each of the ten catalog tags it returns a
    figure for every non-negative index whose 1-based value [index + 1]
    has at most 4300 decimal digits; beyond that the title cannot be
    formatted and the call raises another [ValueError]. *)
Theorem generate_plot_raises_iff_unknown (t : string) (idx : Z) (st : St) :
  (fst (generate_plot_limited (F := F) t idx st)
   = inl (ValueError ("Unknown plot type: " ++ t))
   <-> ~ In t ["scatter"; "line"; "bar"; "histogram"; "box";
               "heatmap"; "pie"; "violin"; "area"; "funnel"]) /\
  (In t PLOT_TYPES -> 0 <= idx -> decimal_digits (idx + 1) <= 4300 ->
   exists fig, fst (generate_plot_limited (F := F) t idx st) = inr fig) /\
  (In t PLOT_TYPES -> 4300 < decimal_digits (idx + 1) ->
   exists msg,
     fst (generate_plot_limited (F := F) t idx st) = inl (ValueError msg) /\
     msg <> "Unknown plot type: " ++ t).
Proof.
  change ["scatter"; "line"; "bar"; "histogram"; "box";
          "heatmap"; "pie"; "violin"; "area"; "funnel"] with PLOT_TYPES.
  split; [| split].
  - split.
    + intros E I.
      destruct (generate_plot_catalog t idx st I) as (fig & st' & R).
      destruct (Z.le_gt_cases (decimal_digits (idx + 1)) 4300) as [L | L].
      * rewrite (proj2 (generate_plot_limited_returns t idx st fig st')
                   (conj R L)) in E.
        discriminate E.
      * destruct (generate_plot_limited_raises t idx st I ltac:(lia))
          as (msg & M & NE).
        rewrite M in E. injection E as E. contradiction.
    + intros N. rewrite (generate_plot_limited_unknown t idx st N).
      reflexivity.
  - intros I _ L.
    destruct (generate_plot_catalog t idx st I) as (fig & st' & R).
    exists fig.
    rewrite (proj2 (generate_plot_limited_returns t idx st fig st')
               (conj R L)).
    reflexivity.
  - apply generate_plot_limited_raises.
Qed.

(** ** The index only reaches the title *)

Ltac run_branch :=
  unfold returns, scatter_plot, line_plot, bar_plot, histogram_plot,
    box_plot, heatmap_plot, pie_plot, violin_plot, area_plot, funnel_plot,
    bind, ret;
  repeat (match goal with
          | |- context [let (_, _) := ?m in _] =>
              lazymatch m with
              | context [let (_, _) := _ in _] => fail
              | _ => destruct m
              end
          end; cbv beta iota zeta).

(** With no limit on the digits, two calls with one tag and one
    generator state return or raise together, and what they return
    differs only in the index the title embeds. *)
Lemma generate_plot_index_relation (t : string) (i1 i2 : Z) (st : St) :
  match generate_plot (F := F) t i1 st, generate_plot (F := F) t i2 st with
  | (inr f1, s1), (inr f2, s2) =>
      s1 = s2 /\ data f1 = data f2 /\ grid f1 = grid f2 /\
      layout_showlegend (layout f1) = layout_showlegend (layout f2) /\
      barmode (layout f1) = barmode (layout f2) /\
      exists description,
        title (layout f1)
        = Some ("Plot " ++ str (i1 + 1) ++ ": " ++ description) /\
        title (layout f2)
        = Some ("Plot " ++ str (i2 + 1) ++ ": " ++ description)
  | (inl e1, s1), (inl e2, s2) => e1 = e2 /\ s1 = s2
  | _, _ => False
  end.
Proof.
  unfold generate_plot.
  repeat match goal with
  | |- context [String.eqb t ?tag] =>
      destruct (String.eqb t tag);
        [run_branch; cbn [update_layout px_box px_violin add_trace
                          data grid layout title layout_showlegend barmode];
         repeat split; eexists; split; reflexivity |]
  end.
  split; reflexivity.
Qed.

(** C8.  Two calls of [generate_plot] with one tag and one generator
    state but different indices, when both return, leave the same
    generator state and give figures with the same traces, grid and
    layout options; only the title differs, by the 1-based index it
    embeds.  For a tag outside the catalog both calls raise the same
    error and leave the generator as it was. *)
Theorem generate_plot_index_only_in_title
    (t : string) (i1 i2 : Z) (st : St) :
  (forall (f1 f2 : Figure F) (s1 s2 : St),
     generate_plot_limited t i1 st = (inr f1, s1) ->
     generate_plot_limited t i2 st = (inr f2, s2) ->
     s1 = s2 /\ data f1 = data f2 /\ grid f1 = grid f2 /\
     layout_showlegend (layout f1) = layout_showlegend (layout f2) /\
     barmode (layout f1) = barmode (layout f2) /\
     exists description,
       title (layout f1)
       = Some ("Plot " ++ str (i1 + 1) ++ ": " ++ description) /\
       title (layout f2)
       = Some ("Plot " ++ str (i2 + 1) ++ ": " ++ description)) /\
  (~ In t PLOT_TYPES ->
   generate_plot_limited (F := F) t i1 st
   = generate_plot_limited (F := F) t i2 st /\
   snd (generate_plot_limited (F := F) t i1 st) = st).
Proof.
  split.
  - intros f1 f2 s1 s2 R1 R2.
    apply generate_plot_limited_returns in R1 as [R1 _].
    apply generate_plot_limited_returns in R2 as [R2 _].
    pose proof (generate_plot_index_relation t i1 i2 st) as H.
    rewrite R1, R2 in H. exact H.
  - intros N. rewrite !(generate_plot_limited_unknown t _ st N).
    split; reflexivity.
Qed.

(** ** The count resolver *)

(** C6, as the code has it.  [get_plot_count] gives 4 when [PLOT_COUNT]
    is unset, and [n] when it holds the decimal text of an [n] of at
    most 4300 digits.  For any text it gives [n] exactly when the text
    is an integer literal of [n] with at most 4300 digits; for every
    other text the [ValueError] of [int()] comes out of
    [get_plot_count] and out of [generate_plots], which then shows
    nothing. *)
Theorem get_plot_count_resolves (w : World (F := F) (St := St)) :
  (lookup_env "PLOT_COUNT" (environ w) = None ->
   fst (get_plot_count w) = inr 4) /\
  (forall n : Z,
     lookup_env "PLOT_COUNT" (environ w) = Some (codes (str n)) ->
     decimal_digits n <= 4300 ->
     fst (get_plot_count w) = inr n) /\
  (forall (s : ustr) (n : Z),
     lookup_env "PLOT_COUNT" (environ w) = Some s ->
     (fst (get_plot_count w) = inr n
      <-> exists k, int_literal s n k /\ k <= 4300)) /\
  (forall s : ustr,
     lookup_env "PLOT_COUNT" (environ w) = Some s ->
     ~ (exists n k, int_literal s n k /\ k <= 4300) ->
     exists msg,
       fst (get_plot_count w) = inl (ValueError msg) /\
       forall show_progress,
         fst (generate_plots None show_progress w) = inl (ValueError msg) /\
         shown (events (snd (generate_plots None show_progress w)))
         = shown (events w)).
Proof.
  unfold generate_plots, get_plot_count, os_getenv.
  split; [| split; [| split]].
  - intros E. rewrite E. reflexivity.
  - intros n E L. rewrite E. cbn [fst]. rewrite py_int_str.
    destruct (Z.ltb_spec int_max_str_digits (decimal_digits n));
      [unfold int_max_str_digits in *; lia | reflexivity].
  - intros s n E. rewrite E. cbn [fst]. apply py_int_spec.
  - intros s E NL. rewrite E. cbn [fst].
    destruct (py_int s) as [[msg] | n] eqn:P.
    + exists msg. split; [reflexivity |].
      intros sp. cbn [fst snd emit events]. split; [reflexivity |].
      clear. induction (events w) as [| e l IH]; [reflexivity |].
      destruct e; cbn [shown app]; rewrite ?IH; reflexivity.
    + exfalso. apply NL. apply py_int_spec in P.
      destruct P as (k & L & K). exists n, k. split; assumption.
Qed.

(** ** The driver loop *)

Lemma shown_app (l1 l2 : list (Event (F := F))) :
  shown (l1 ++ l2) = (shown l1 ++ shown l2)%list.
Proof.
  induction l1 as [| e l1 IH]; [reflexivity |].
  destruct e; cbn [shown app]; rewrite ?IH; reflexivity.
Qed.

Lemma plot_type_at_catalog (i : Z) :
  In (plot_type_at (i mod Z.of_nat (List.length PLOT_TYPES))) PLOT_TYPES.
Proof.
  unfold plot_type_at. apply nth_In.
  change (List.length PLOT_TYPES) with 10%nat.
  change (Z.of_nat 10) with 10.
  pose proof (Z.mod_pos_bound i 10 eq_refl). lia.
Qed.

(** One iteration: a figure is synthesized from the round-robin tag and
    shown, then the progress line is printed if due. *)
Lemma driver_step_runs (show_progress : bool) (i : Z)
    (w : World (F := F) (St := St)) :
  exists fig st',
    generate_plot (nth (Z.to_nat (i mod 10)) PLOT_TYPES "") i (rng w)
    = (inr fig, st') /\
    driver_step show_progress i w =
    (inr tt,
     mkWorld (environ w) st'
       (events w ++ Show fig ::
          (if (show_progress && ((i + 1) mod 10 =? 0))%bool
           then [Print (progress_text (i + 1))] else []))%list).
Proof.
  unfold driver_step.
  pose proof (plot_type_at_catalog i) as I.
  change (plot_type_at (i mod Z.of_nat (List.length PLOT_TYPES)))
    with (nth (Z.to_nat (i mod 10)) PLOT_TYPES "") in *.
  destruct (generate_plot_catalog _ i (rng w) I) as (fig & st' & R).
  exists fig, st'. split; [exact R |]. rewrite R.
  unfold emit, progress_text. cbn [environ rng events].
  destruct (show_progress && ((i + 1) mod 10 =? 0))%bool;
    rewrite <- ?app_assoc; reflexivity.
Qed.

(** The loop never raises; it logs the expected marks and shows the
    figures of the round-robin jobs, synthesized in order. *)
Lemma driver_loop_runs (show_progress : bool) (l : list Z) :
  forall w : World (F := F) (St := St),
  exists w',
    driver_loop show_progress l w = (inr tt, w') /\
    environ w' = environ w /\
    map mark (events w')
    = (map mark (events w) ++ flat_map (step_marks show_progress) l)%list /\
    shown (events w')
    = (shown (events w) ++ synthesize_all (round_robin l) (rng w))%list.
Proof.
  induction l as [| i l IH]; intros w.
  - exists w. cbn [driver_loop flat_map round_robin map synthesize_all].
    rewrite !app_nil_r. auto.
  - cbn [driver_loop].
    destruct (driver_step_runs show_progress i w) as (fig & st' & R & E).
    rewrite E. destruct (IH (mkWorld (environ w) st'
       (events w ++ Show fig ::
          (if (show_progress && ((i + 1) mod 10 =? 0))%bool
           then [Print (progress_text (i + 1))] else []))%list))
      as (w' & L & En & M & S).
    exists w'. cbn [environ rng events] in *.
    split; [exact L |]. split; [exact En |].
    cbn [flat_map round_robin map synthesize_all].
    fold (round_robin l). rewrite R. split.
    + rewrite M, map_app. unfold step_marks.
      destruct (show_progress && ((i + 1) mod 10 =? 0))%bool;
        cbn [map mark app]; rewrite <- app_assoc; reflexivity.
    + rewrite S, shown_app.
      destruct (show_progress && ((i + 1) mod 10 =? 0))%bool;
        cbn [shown app]; rewrite <- app_assoc; reflexivity.
Qed.

Lemma synthesize_all_length (l : list Z) :
  forall st : St,
    List.length (synthesize_all (F := F) (round_robin l) st) = List.length l.
Proof.
  induction l as [| i l IH]; intros st; [reflexivity |].
  cbn [round_robin map synthesize_all]. fold (round_robin l).
  pose proof (plot_type_at_catalog i) as I.
  destruct (generate_plot_catalog _ i st I) as (fig & st' & R).
  change (plot_type_at (i mod Z.of_nat (List.length PLOT_TYPES)))
    with (nth (Z.to_nat (i mod 10)) PLOT_TYPES "") in R.
  rewrite R. cbn [List.length]. rewrite IH. reflexivity.
Qed.

Lemma step_marks_quiet (l : list Z) :
  flat_map (step_marks false) l = repeat Shown (List.length l).
Proof.
  induction l as [| i l IH]; [reflexivity |].
  cbn [flat_map step_marks andb app List.length repeat]. rewrite IH.
  reflexivity.
Qed.

(** C4.  A run of [n] plots never raises and shows exactly the figures
    obtained by synthesizing, in order and on the run's generator, tag
    [PLOT_TYPES[i % 10]] at index [i] for [i = 0 .. n-1]; there are [n]
    of them.  For 25 plots the tags are the catalog twice, then its
    first five. *)
Theorem generate_plots_round_robin (n : Z) (show_progress : bool)
    (w : World (F := F) (St := St)) :
  (exists w',
     generate_plots (Some n) show_progress w = (inr tt, w') /\
     shown (events w')
     = (shown (events w) ++
        synthesize_all
          (map (fun i => (nth (Z.to_nat (i mod 10)) PLOT_TYPES "", i))
               (range n))
          (rng w))%list /\
     List.length (shown (events w'))
     = (List.length (shown (events w)) + Z.to_nat n)%nat) /\
  map (fun i => nth (Z.to_nat (i mod 10)) PLOT_TYPES "") (range 25)
  = (PLOT_TYPES ++ PLOT_TYPES
     ++ ["scatter"; "line"; "bar"; "histogram"; "box"])%list.
Proof.
  split; [| reflexivity].
  cbn [generate_plots].
  destruct (driver_loop_runs show_progress (range n) w)
    as (w' & L & _ & _ & S).
  exists w'. split; [exact L |]. split; [exact S |].
  rewrite S, length_app, synthesize_all_length, range_length.
  reflexivity.
Qed.

(** C5.  With progress on, the log of a run is, plot after plot, the
    figure followed by a progress line exactly when the plot's 1-based
    position is a multiple of 10; a run of 23 plots prints two lines,
    after plots 10 and 20.  With progress off the log holds the shown
    figures only, whatever the count. *)
Theorem generate_plots_progress (n : Z) (w : World (F := F) (St := St)) :
  (exists w',
     generate_plots (Some n) true w = (inr tt, w') /\
     map mark (events w')
     = (map mark (events w) ++
        flat_map (fun i => Shown ::
                    (if (i + 1) mod 10 =? 0
                     then [Printed (progress_text (i + 1))] else []))
                 (range n))%list) /\
  (exists w',
     generate_plots (Some 23) true w = (inr tt, w') /\
     map mark (events w')
     = (map mark (events w) ++
        repeat Shown 10 ++ [Printed (progress_text 10)] ++
        repeat Shown 10 ++ [Printed (progress_text 20)] ++
        repeat Shown 3)%list) /\
  (exists w',
     generate_plots (Some n) false w = (inr tt, w') /\
     map mark (events w')
     = (map mark (events w) ++ repeat Shown (Z.to_nat n))%list /\
     filter is_printed (map mark (events w'))
     = filter is_printed (map mark (events w))).
Proof.
  cbn [generate_plots]. repeat split.
  - destruct (driver_loop_runs true (range n) w) as (w' & L & _ & M & _).
    exists w'. split; [exact L |]. exact M.
  - destruct (driver_loop_runs true (range 23) w) as (w' & L & _ & M & _).
    exists w'. split; [exact L |]. exact M.
  - destruct (driver_loop_runs false (range n) w) as (w' & L & _ & M & _).
    exists w'. split; [exact L |].
    rewrite step_marks_quiet, range_length in M.
    split; [exact M |]. rewrite M, filter_app.
    replace (filter is_printed (repeat Shown (Z.to_nat n))) with (@nil Mark).
    + apply app_nil_r.
    + clear. induction (Z.to_nat n) as [| k IH]; [reflexivity | exact IH].
Qed.

(** C10.  [generate_plots(0)], with progress on or off, returns at once
    and leaves the world as it found it: no figure is shown, no line is
    printed, the environment is not read and the generator state is the
    one it started with.  (A call without a count does read the
    environment, which the log records.) *)
Theorem generate_plots_zero (show_progress : bool)
    (w : World (F := F) (St := St)) :
  let w' := snd (generate_plots (Some 0) show_progress w) in
  fst (generate_plots (Some 0) show_progress w) = inr tt /\
  w' = w /\
  shown (events w') = shown (events w) /\
  map mark (events w') = map mark (events w) /\
  rng w' = rng w /\
  exists rest,
    map mark (events (snd (generate_plots None show_progress w)))
    = (map mark (events w) ++ Read "PLOT_COUNT" :: rest)%list.
Proof.
  cbv zeta.
  assert (Z0 : generate_plots (Some 0) show_progress w = (inr tt, w))
    by reflexivity.
  rewrite Z0. cbn [fst snd]. repeat split.
  unfold generate_plots, get_plot_count, os_getenv.
  destruct (py_int _) as [e | n]; cbn [snd].
  - exists []. unfold emit. cbn [events]. rewrite map_app. reflexivity.
  - destruct (driver_loop_runs show_progress (range n)
                (emit (Getenv "PLOT_COUNT") w)) as (w' & L & _ & M & _).
    rewrite L. cbn [snd]. rewrite M. unfold emit. cbn [events].
    rewrite map_app, <- app_assoc. eexists. reflexivity.
Qed.

(** ** What each loop body adds to the figure *)

Ltac run_draws :=
  repeat (match goal with
          | |- context [let (_, _) := ?m in _] =>
              lazymatch m with
              | context [let (_, _) := _ in _] => fail
              | _ => let E := fresh "E" in destruct m eqn:E
              end
          end; cbv beta iota zeta).

Ltac draw_lengths :=
  repeat match goal with
  | E : np_random_randn ?n ?s = (?l, _) |- _ =>
      let L := fresh "L" in
      pose proof (randn_length n s) as L; rewrite E in L;
      cbn [fst] in L; clear E
  | E : np_random_normal ?loc ?scale ?n ?s = (?l, _) |- _ =>
      let L := fresh "L" in
      pose proof (normal_length loc scale n s) as L; rewrite E in L;
      cbn [fst] in L; clear E
  | E : np_random_exponential ?scale ?n ?s = (?l, _) |- _ =>
      let L := fresh "L" in
      pose proof (exponential_length scale n s) as L; rewrite E in L;
      cbn [fst] in L; clear E
  end.

Ltac body_shape :=
  unfold bind, ret; run_draws; draw_lengths;
  cbn [fst]; unfold shapes, cells, add_trace; cbn [data];
  rewrite map_app; cbn [map fst snd trace_shape marker_color];
  rewrite ?map2_length, ?add_int_length, ?cumsum_length, ?length_map,
    ?linspace_length;
  repeat match goal with L : List.length _ = _ |- _ => rewrite L; clear L end;
  rewrite ?Nat.min_id; try reflexivity.

Lemma scatter_body_shape (i : Z) (fig : Figure F) (s : St) :
  shapes (fst (scatter_body i fig s))
  = (shapes fig ++ [ScatterglShape 1000 1000 1000])%list.
Proof. unfold scatter_body. body_shape. Qed.

Lemma scatter_body_cell (i : Z) (fig : Figure F) (s : St) :
  cells (fst (scatter_body i fig s))
  = (cells fig ++ [Some ((i mod 4) / 2 + 1, (i mod 4) mod 2 + 1)])%list.
Proof. unfold scatter_body. body_shape. Qed.

Lemma line_body_shape (i : Z) (fig : Figure F) (s : St) :
  shapes (fst (line_body i fig s))
  = (shapes fig ++ [ScatterShape 2000 2000])%list.
Proof. unfold line_body. body_shape. Qed.

Lemma line_body_cell (i : Z) (fig : Figure F) (s : St) :
  cells (fst (line_body i fig s))
  = (cells fig ++ [Some (i / 2 + 1, i mod 2 + 1)])%list.
Proof. unfold line_body. body_shape. Qed.

Lemma bar_body_shape (cats : list string) (i : Z) (fig : Figure F) (s : St) :
  shapes (fst (bar_body cats i fig s))
  = (shapes fig ++ [BarShape (List.length cats) 50])%list.
Proof. unfold bar_body. body_shape. Qed.

Lemma bar_body_cell (cats : list string) (i : Z) (fig : Figure F) (s : St) :
  cells (fst (bar_body cats i fig s))
  = (cells fig ++ [Some (i / 2 + 1, i mod 2 + 1)])%list.
Proof. unfold bar_body. body_shape. Qed.

Lemma histogram_body_shape (i : Z) (fig : Figure F) (s : St) :
  shapes (fst (histogram_body i fig s))
  = (shapes fig ++ [HistogramShape 2000 50])%list.
Proof. unfold histogram_body. body_shape. Qed.

Lemma units_repeat {A} (l : list A) :
  map (fun _ => tt) l = repeat tt (List.length l).
Proof.
  induction l as [| v l IH]; [reflexivity |].
  cbn [map List.length repeat]. rewrite IH. reflexivity.
Qed.

Lemma box_body_categories (cat : string) (acc : Columns (F := F)) (s : St) :
  snd (fst (box_body cat acc s)) = (snd acc ++ repeat cat 200)%list.
Proof.
  unfold box_body, np_random_uniform, bind, ret. run_draws. draw_lengths.
  cbn [fst snd extend_columns]. rewrite L. reflexivity.
Qed.

Lemma box_body_values (cat : string) (acc : Columns (F := F)) (s : St) :
  map (fun _ => tt) (fst (fst (box_body cat acc s)))
  = (map (fun _ => tt) (fst acc) ++ repeat tt 200)%list.
Proof.
  unfold box_body, np_random_uniform, bind, ret. run_draws. draw_lengths.
  cbn [fst snd extend_columns]. rewrite map_app. f_equal.
  rewrite units_repeat, L. reflexivity.
Qed.

Lemma violin_body_categories (cat : ascii) (acc : Columns (F := F)) (s : St) :
  snd (fst (violin_body cat acc s))
  = (snd acc ++ repeat (String cat EmptyString) 1000)%list.
Proof.
  unfold violin_body, bind, ret. run_draws. draw_lengths.
  cbn [fst snd extend_columns]. rewrite L. reflexivity.
Qed.

Lemma violin_body_values (cat : ascii) (acc : Columns (F := F)) (s : St) :
  map (fun _ => tt) (fst (fst (violin_body cat acc s)))
  = (map (fun _ => tt) (fst acc) ++ repeat tt 1000)%list.
Proof.
  unfold violin_body, bind, ret. run_draws. draw_lengths.
  cbn [fst snd extend_columns]. rewrite map_app. f_equal.
  rewrite units_repeat, L. reflexivity.
Qed.

Lemma area_series_lengths (i : Z) (y_data : list (list F)) (s : St) :
  map (@List.length F) (fst (area_series i y_data s))
  = (map (@List.length F) y_data ++ [500%nat])%list.
Proof.
  unfold area_series, bind, ret. run_draws. draw_lengths.
  cbn [fst]. rewrite map_app. cbn [map].
  rewrite add_int_length, cumsum_length, L. reflexivity.
Qed.

(** ** Sorting *)

Lemma insert_sorted_perm (v : F) (l : list F) :
  Permutation (insert_sorted v l) (v :: l).
Proof.
  induction l as [| w l IH]; [apply Permutation_refl |].
  cbn [insert_sorted]. destruct (fle v w); [apply Permutation_refl |].
  eapply perm_trans; [apply perm_skip, IH | apply perm_swap].
Qed.

Lemma np_sort_perm (a : list F) : Permutation (np_sort a) a.
Proof.
  induction a as [| v l IH]; [apply perm_nil |].
  cbn [np_sort]. eapply perm_trans; [apply insert_sorted_perm |].
  apply perm_skip, IH.
Qed.

Lemma np_sort_length (a : list F) :
  List.length (np_sort a) = List.length a.
Proof. apply Permutation_length, np_sort_perm. Qed.

(** ** The shapes of the ten figures *)

Lemma update_layout_shapes (fig : Figure F) t sl bm :
  shapes (update_layout fig t sl bm) = shapes fig.
Proof. reflexivity. Qed.

Lemma update_layout_cells (fig : Figure F) t sl bm :
  cells (update_layout fig t sl bm) = cells fig.
Proof. reflexivity. Qed.

Ltac loop_observed obs body o Hbody l fig st :=
  let O := fresh "O" in
  pose proof (for_each_observed obs body o Hbody l fig st) as O;
  destruct (for_each l body fig st);
  cbn [fst snd] in *.

Ltac enter_branch :=
  unfold generate_plot;
  cbv beta iota zeta delta [String.eqb Ascii.eqb Bool.eqb str_in existsb orb];
  unfold result_shapes, result_cells, returns, scatter_plot, line_plot,
    bar_plot, histogram_plot, box_plot, heatmap_plot, pie_plot, violin_plot,
    area_plot, funnel_plot, bind, ret.

Ltac figure_loop obs o Hbody :=
  match goal with
  | |- context [for_each ?l ?body ?fig ?st] =>
      loop_observed obs body o Hbody l fig st
  end.

Lemma scatter_shapes (idx : Z) (st : St) :
  result_shapes (generate_plot (F := F) "scatter" idx st)
  = Some (repeat (ScatterglShape 1000 1000 1000) 50).
Proof.
  enter_branch.
  figure_loop (shapes (F := F))
    (fun _ : Z => [ScatterglShape 1000 1000 1000]) scatter_body_shape.
  rewrite update_layout_shapes, O. reflexivity.
Qed.

Lemma line_shapes (idx : Z) (st : St) :
  result_shapes (generate_plot (F := F) "line" idx st)
  = Some (repeat (ScatterShape 2000 2000) 4).
Proof.
  enter_branch.
  figure_loop (shapes (F := F))
    (fun _ : Z => [ScatterShape 2000 2000]) line_body_shape.
  rewrite update_layout_shapes, O. reflexivity.
Qed.

Lemma bar_shapes (idx : Z) (st : St) :
  result_shapes (generate_plot (F := F) "bar" idx st)
  = Some (repeat (BarShape 50 50) 4).
Proof.
  enter_branch.
  match goal with
  | |- context [for_each ?l (bar_body ?cats) ?fig st] =>
      loop_observed (shapes (F := F)) (bar_body cats)
        (fun _ : Z => [BarShape (List.length cats) 50])
        (bar_body_shape cats) l fig st
  end.
  rewrite update_layout_shapes, O. reflexivity.
Qed.

Lemma histogram_shapes (idx : Z) (st : St) :
  result_shapes (generate_plot (F := F) "histogram" idx st)
  = Some (repeat (HistogramShape 2000 50) 3).
Proof.
  enter_branch.
  figure_loop (shapes (F := F))
    (fun _ : Z => [HistogramShape 2000 50]) histogram_body_shape.
  rewrite update_layout_shapes, O. reflexivity.
Qed.

Lemma box_shapes (idx : Z) (st : St) :
  result_shapes (generate_plot (F := F) "box" idx st)
  = Some [BoxShape (map (fun j => ("Group_" ++ str j, 200%nat)) (range 20))
                   4000].
Proof.
  enter_branch.
  match goal with
  | |- context [for_each ?l box_body ?acc st] =>
      pose proof (for_each_observed (fun a : Columns => snd a) box_body
                    (fun c => repeat c 200) box_body_categories l acc st)
        as OC;
      pose proof (for_each_observed
                    (fun a : Columns => map (fun _ => tt) (fst a)) box_body
                    (fun _ => repeat tt 200) box_body_values l acc st)
        as OV;
      destruct (for_each l box_body acc st) as [[vals cats] st']
  end.
  cbn [fst snd] in *. unfold shapes, px_box.
  cbn [data map fst trace_shape df_category df_value].
  apply (f_equal (@List.length unit)) in OV. rewrite length_map in OV.
  rewrite OC, OV. vm_compute. reflexivity.
Qed.

Lemma heatmap_shapes (idx : Z) (st : St) :
  result_shapes (generate_plot (F := F) "heatmap" idx st)
  = Some [HeatmapShape (repeat 100%nat 100)].
Proof.
  enter_branch. pose proof (randn2_shape 100 100 st) as Z.
  destruct (np_random_randn2 100 100 st) as [z st'].
  cbn [fst] in *. rewrite update_layout_shapes.
  unfold shapes, add_trace, go_Figure.
  cbn [data app map fst trace_shape]. rewrite Z. reflexivity.
Qed.

Lemma pie_shapes (idx : Z) (st : St) :
  result_shapes (generate_plot (F := F) "pie" idx st)
  = Some [PieShape 25 25].
Proof.
  enter_branch. pose proof (exponential_length (of_int 10) 25 st) as L.
  destruct (np_random_exponential (of_int 10) 25 st) as [v st'].
  cbn [fst] in *. rewrite update_layout_shapes.
  unfold shapes, add_trace, go_Figure.
  cbn [data app map fst trace_shape]. rewrite L. reflexivity.
Qed.

Lemma violin_shapes (idx : Z) (st : St) :
  result_shapes (generate_plot (F := F) "violin" idx st)
  = Some [ViolinShape [("A", 1000%nat); ("B", 1000%nat); ("C", 1000%nat);
                       ("D", 1000%nat); ("E", 1000%nat)] 5000].
Proof.
  enter_branch.
  match goal with
  | |- context [for_each ?l violin_body ?acc st] =>
      pose proof (for_each_observed (fun a : Columns => snd a) violin_body
                    (fun c => repeat (String c EmptyString) 1000)
                    violin_body_categories l acc st)
        as OC;
      pose proof (for_each_observed
                    (fun a : Columns => map (fun _ => tt) (fst a)) violin_body
                    (fun _ => repeat tt 1000) violin_body_values l acc st)
        as OV;
      destruct (for_each l violin_body acc st) as [[vals cats] st']
  end.
  cbn [fst snd] in *. unfold shapes, px_violin.
  cbn [data map fst trace_shape df_category df_value].
  apply (f_equal (@List.length unit)) in OV. rewrite length_map in OV.
  rewrite OC, OV. vm_compute. reflexivity.
Qed.

Lemma area_traces_shapes (x : list F) (pairs : list (Z * list F)) :
  forall fig,
    shapes (fold_left (area_trace x) pairs fig)
    = (shapes fig ++
       map (fun p => ScatterShape (List.length x) (List.length (snd p)))
           pairs)%list.
Proof.
  induction pairs as [| [i y] pairs IH]; intros fig.
  - cbn [fold_left map]. rewrite app_nil_r. reflexivity.
  - cbn [fold_left map]. rewrite IH. unfold area_trace, shapes, add_trace.
    cbn [data snd]. rewrite map_app. cbn [map fst trace_shape].
    rewrite <- app_assoc. reflexivity.
Qed.

Lemma enumerate_snd {A} (l : list A) : map snd (enumerate l) = l.
Proof.
  unfold enumerate.
  assert (G : forall (ks : list Z) (xs : list A),
             List.length ks = List.length xs ->
             map snd (combine ks xs) = xs).
  { induction ks as [| k ks IH]; intros [| y ys] E; try discriminate E;
      [reflexivity |].
    cbn [combine map snd]. rewrite IH; [reflexivity |].
    injection E as E. exact E. }
  apply G. rewrite range_length, Nat2Z.id. reflexivity.
Qed.

Lemma area_shapes (idx : Z) (st : St) :
  result_shapes (generate_plot (F := F) "area" idx st)
  = Some (repeat (ScatterShape 500 500) 5).
Proof.
  enter_branch.
  match goal with
  | |- context [for_each ?l area_series ?acc st] =>
      pose proof (for_each_observed (map (@List.length F)) area_series
                    (fun _ => [500%nat]) area_series_lengths l acc st) as O;
      destruct (for_each l area_series acc st) as [y_data st']
  end.
  cbn [fst] in *. rewrite update_layout_shapes, area_traces_shapes.
  rewrite linspace_length.
  rewrite <- (map_map snd (fun y => ScatterShape 500 (List.length y))).
  rewrite enumerate_snd.
  rewrite <- (map_map (@List.length F) (ScatterShape 500)), O.
  reflexivity.
Qed.

Lemma funnel_shapes (idx : Z) (st : St) :
  result_shapes (generate_plot (F := F) "funnel" idx st)
  = Some [FunnelShape 15 15].
Proof.
  enter_branch. pose proof (exponential_length (of_int 100) 15 st) as L.
  destruct (np_random_exponential (of_int 100) 15 st) as [v st'].
  cbn [fst] in *. rewrite update_layout_shapes.
  unfold shapes, add_trace, go_Figure.
  cbn [data app map fst trace_shape].
  rewrite length_rev, np_sort_length, L. reflexivity.
Qed.

(** C7.  The figure of every catalog tag carries exactly the traces and
    dataset sizes of the design table: scatter 50 series of 1000 points,
    line 4 of 2000, bar 4 series over 50 categories, histogram 3 samples
    of 2000 with 50 bins, box 20 categories of 200 samples, heatmap one
    100 x 100 matrix, pie 25 slices, violin 5 categories (A to E) of 1000
    samples, area 5 series of 500 points, funnel 15 stages. *)
Theorem dataset_sizes (idx : Z) (st : St) :
  let shape_of tag := result_shapes (generate_plot (F := F) tag idx st) in
  shape_of "scatter" = Some (repeat (ScatterglShape 1000 1000 1000) 50) /\
  shape_of "line" = Some (repeat (ScatterShape 2000 2000) 4) /\
  shape_of "bar" = Some (repeat (BarShape 50 50) 4) /\
  shape_of "histogram" = Some (repeat (HistogramShape 2000 50) 3) /\
  shape_of "box"
  = Some [BoxShape (map (fun j => ("Group_" ++ str j, 200%nat)) (range 20))
                   4000] /\
  shape_of "heatmap" = Some [HeatmapShape (repeat 100%nat 100)] /\
  shape_of "pie" = Some [PieShape 25 25] /\
  shape_of "violin"
  = Some [ViolinShape [("A", 1000%nat); ("B", 1000%nat); ("C", 1000%nat);
                       ("D", 1000%nat); ("E", 1000%nat)] 5000] /\
  shape_of "area" = Some (repeat (ScatterShape 500 500) 5) /\
  shape_of "funnel" = Some [FunnelShape 15 15].
Proof.
  cbv zeta.
  repeat split;
    [apply scatter_shapes | apply line_shapes | apply bar_shapes
     | apply histogram_shapes | apply box_shapes | apply heatmap_shapes
     | apply pie_shapes | apply violin_shapes | apply area_shapes
     | apply funnel_shapes].
Qed.

(** ** Grid cells *)

Lemma scatter_cells (idx : Z) (st : St) :
  result_cells (generate_plot (F := F) "scatter" idx st)
  = Some (map (fun s => Some (grid_cell s)) (range 50)).
Proof.
  enter_branch.
  figure_loop (cells (F := F))
    (fun i : Z => [Some ((i mod 4) / 2 + 1, (i mod 4) mod 2 + 1)])
    scatter_body_cell.
  rewrite update_layout_cells, O. reflexivity.
Qed.

Lemma line_cells (idx : Z) (st : St) :
  result_cells (generate_plot (F := F) "line" idx st)
  = Some (map (fun s => Some (grid_cell s)) (range 4)).
Proof.
  enter_branch.
  figure_loop (cells (F := F))
    (fun i : Z => [Some (i / 2 + 1, i mod 2 + 1)]) line_body_cell.
  rewrite update_layout_cells, O. reflexivity.
Qed.

Lemma bar_cells (idx : Z) (st : St) :
  result_cells (generate_plot (F := F) "bar" idx st)
  = Some (map (fun s => Some (grid_cell s)) (range 4)).
Proof.
  enter_branch.
  match goal with
  | |- context [for_each ?l (bar_body ?cats) ?fig st] =>
      loop_observed (cells (F := F)) (bar_body cats)
        (fun i : Z => [Some (i / 2 + 1, i mod 2 + 1)])
        (bar_body_cell cats) l fig st
  end.
  rewrite update_layout_cells, O. reflexivity.
Qed.

(** C3.  The figures of the grid-layout tags (scatter, line, bar) hold
    50, 4 and 4 traces, and the trace of series [s] sits in cell
    [c = s % 4], at row [c // 2 + 1] and column [c % 2 + 1]: the cells of
    the 50 scatter series follow that rule in the order of the series,
    and the four series of the line and of the bar figure sit at (1, 1),
    (1, 2), (2, 1) and (2, 2).  In the scatter figure series 5 is at
    (1, 2) and series 0 at (1, 1). *)
Theorem grid_cell_mapping (t : string) (idx : Z) (st : St) :
  (In t ["scatter"; "line"; "bar"] ->
   exists fig st',
     generate_plot (F := F) t idx st = (inr fig, st') /\
     List.length (data fig)
     = (if String.eqb t "scatter" then 50 else 4)%nat /\
     forall (s : nat) tr cell,
       nth_error (data fig) s = Some (tr, cell) ->
       cell = Some (((Z.of_nat s mod 4) / 2 + 1,
                     (Z.of_nat s mod 4) mod 2 + 1))) /\
  (exists fig st',
     generate_plot (F := F) "scatter" idx st = (inr fig, st') /\
     nth_error (cells fig) 5 = Some (Some (1, 2)) /\
     nth_error (cells fig) 0 = Some (Some (1, 1))) /\
  result_cells (generate_plot (F := F) "scatter" idx st)
  = Some (map (fun s => Some ((s mod 4) / 2 + 1, (s mod 4) mod 2 + 1))
              (range 50)) /\
  result_cells (generate_plot (F := F) "line" idx st)
  = Some [Some (1, 1); Some (1, 2); Some (2, 1); Some (2, 2)] /\
  result_cells (generate_plot (F := F) "bar" idx st)
  = Some [Some (1, 1); Some (1, 2); Some (2, 1); Some (2, 2)].
Proof.
  assert (G : forall tag n,
             result_cells (generate_plot (F := F) tag idx st)
             = Some (map (fun s => Some (grid_cell s)) (range (Z.of_nat n))) ->
             exists fig st',
               generate_plot (F := F) tag idx st = (inr fig, st') /\
               cells fig
               = map (fun s => Some (grid_cell s)) (range (Z.of_nat n))).
  { intros tag n R. unfold result_cells in R.
    destruct (generate_plot tag idx st) as [[e | fig] st'];
      [discriminate R |].
    exists fig, st'. split; [reflexivity |]. cbn [fst] in R.
    injection R as R. exact R. }
  split; [| split; [| split; [| split]]].
  - intros I.
    assert (C : exists n,
               result_cells (generate_plot (F := F) t idx st)
               = Some (map (fun s => Some (grid_cell s))
                           (range (Z.of_nat n))) /\
               n = (if String.eqb t "scatter" then 50 else 4)%nat).
    { cbn [In] in I. destruct I as [<- | [<- | [<- | []]]].
      - exists 50%nat. split; [apply scatter_cells | reflexivity].
      - exists 4%nat. split; [apply line_cells | reflexivity].
      - exists 4%nat. split; [apply bar_cells | reflexivity]. }
    destruct C as (n & C & Hn). destruct (G t n C) as (fig & st' & R & E).
    exists fig, st'. split; [exact R |]. split.
    { rewrite <- Hn, <- (length_map snd (data fig)).
      change (map snd (data fig)) with (cells fig).
      rewrite E, length_map, range_length, Nat2Z.id. reflexivity. }
    intros s tr cell N.
    assert (NC : nth_error (cells fig) s = Some cell).
    { unfold cells. rewrite nth_error_map, N. reflexivity. }
    rewrite E in NC. unfold range in NC.
    rewrite Nat2Z.id, map_map, nth_error_map in NC.
    destruct (nth_error (seq 0 n) s) as [k |] eqn:K; [| discriminate NC].
    apply nth_error_nth with (d := 0%nat) in K as K'.
    assert (s < n)%nat as B.
    { rewrite <- (length_seq n 0). apply nth_error_Some. congruence. }
    rewrite seq_nth in K' by exact B. cbn [Nat.add] in K'. subst k.
    cbn [option_map] in NC. injection NC as <-. reflexivity.
  - destruct (G "scatter" 50%nat (scatter_cells idx st))
      as (fig & st' & R & E).
    exists fig, st'. split; [exact R |]. rewrite E. split; reflexivity.
  - exact (scatter_cells idx st).
  - rewrite line_cells. reflexivity.
  - rewrite bar_cells. reflexivity.
Qed.

(** ** Draws taken by the loop bodies *)

Lemma replicateM_state {A B} (m1 : Rand (St := St) A)
    (m2 : Rand (St := St) B) :
  (forall s, snd (m1 s) = snd (m2 s)) ->
  forall n s, snd (replicateM n m1 s) = snd (replicateM n m2 s).
Proof.
  intros Hm. induction n as [| n IH]; intros s; [reflexivity |].
  cbn [replicateM]. unfold bind, ret.
  specialize (Hm s). destruct (m1 s) as [a s1]. destruct (m2 s) as [b s2].
  cbn [snd] in Hm. subst s2. specialize (IH s1).
  destruct (replicateM n m1 s1). destruct (replicateM n m2 s1).
  exact IH.
Qed.

Lemma after_draws_add {A} (f : Rand (St := St) A) (n m : nat) (s : St) :
  after_draws f (n + m) s = after_draws f m (after_draws f n s).
Proof.
  unfold after_draws. revert s.
  induction n as [| n IH]; intros s; [reflexivity |].
  cbn [Nat.add replicateM]. unfold bind, ret.
  destruct (f s) as [a s1]. specialize (IH s1).
  destruct (replicateM (n + m) f s1). destruct (replicateM n f s1).
  exact IH.
Qed.

Lemma after_draws_nested {A} (f : Rand (St := St) A) (rows cols : nat)
    (s : St) :
  snd (replicateM rows (replicateM cols f) s)
  = after_draws f (rows * cols) s.
Proof.
  revert s. induction rows as [| r IH]; intros s; [reflexivity |].
  cbn [Nat.mul]. rewrite after_draws_add. rewrite <- IH.
  cbn [replicateM]. unfold bind, ret, after_draws.
  destruct (replicateM cols f s) as [v s1]. cbn [snd].
  destruct (replicateM r (replicateM cols f) s1). reflexivity.
Qed.

Lemma for_each_steps {A X} (body : A -> X -> Rand (St := St) X)
    (step : St -> St) :
  (forall a x s, snd (body a x s) = step s) ->
  forall l x s,
    snd (for_each l body x s) = Nat.iter (List.length l) step s.
Proof.
  intros Hbody. induction l as [| a l IH]; intros x s; [reflexivity |].
  cbn [for_each List.length]. unfold bind.
  specialize (Hbody a x s). destruct (body a x s) as [x' s'].
  cbn [snd] in Hbody. rewrite IH, Hbody, Nat.iter_swap. reflexivity.
Qed.

Lemma iter_after_draws {A} (f : Rand (St := St) A) (k n : nat) (s : St) :
  Nat.iter n (after_draws f k) s = after_draws f (n * k) s.
Proof.
  revert s. induction n as [| n IH]; intros s; [reflexivity |].
  rewrite Nat.iter_succ, <- Nat.iter_swap, IH. cbn [Nat.mul].
  rewrite after_draws_add. reflexivity.
Qed.

Lemma for_each_consumes {A X B} (body : A -> X -> Rand (St := St) X)
    (f : Rand (St := St) B) (k : nat) :
  (forall a x s, snd (body a x s) = after_draws f k s) ->
  forall l x s,
    snd (for_each l body x s) = after_draws f (List.length l * k) s.
Proof.
  intros Hbody l x s.
  rewrite (for_each_steps body (after_draws f k) Hbody).
  apply iter_after_draws.
Qed.

Lemma normal_state (loc scale : F) (n : nat) (s : St) :
  snd (np_random_normal loc scale n s)
  = after_draws (legacy_gauss (F := F)) n s.
Proof.
  apply replicateM_state. intros s0. unfold bind, ret.
  destruct (legacy_gauss s0). reflexivity.
Qed.

Lemma exponential_state (scale : F) (n : nat) (s : St) :
  snd (np_random_exponential scale n s)
  = after_draws (legacy_standard_exponential (F := F)) n s.
Proof.
  apply replicateM_state. intros s0. unfold bind, ret.
  destruct (legacy_standard_exponential s0). reflexivity.
Qed.

Lemma randn_state (n : nat) (s : St) :
  snd (np_random_randn (F := F) n s)
  = after_draws (legacy_gauss (F := F)) n s.
Proof. reflexivity. Qed.

Ltac run_states :=
  repeat (match goal with
          | |- context [let (_, _) := ?m in _] =>
              lazymatch m with
              | context [let (_, _) := _ in _] => fail
              | _ =>
                  let E := fresh "E" in
                  destruct m eqn:E; apply (f_equal snd) in E;
                  cbn [snd] in E;
                  rewrite ?randn_state, ?normal_state, ?exponential_state
                    in E
              end
          end; cbv beta iota zeta);
  subst; cbn [snd].

Lemma scatter_body_consumes (i : Z) (fig : Figure F) (s : St) :
  snd (scatter_body i fig s)
  = after_draws (legacy_gauss (F := F)) (3 * 1000) s.
Proof.
  unfold scatter_body, bind, ret. run_states.
  change (3 * 1000)%nat with (1000 + (1000 + 1000))%nat.
  rewrite !after_draws_add. reflexivity.
Qed.

Lemma line_body_consumes (i : Z) (fig : Figure F) (s : St) :
  snd (line_body i fig s) = after_draws (legacy_gauss (F := F)) 2000 s.
Proof. unfold line_body, bind, ret. run_states. reflexivity. Qed.

Lemma bar_body_consumes (cats : list string) (i : Z) (fig : Figure F)
    (s : St) :
  snd (bar_body cats i fig s)
  = after_draws (legacy_standard_exponential (F := F)) 50 s.
Proof. unfold bar_body, bind, ret. run_states. reflexivity. Qed.

Lemma histogram_body_consumes (i : Z) (fig : Figure F) (s : St) :
  snd (histogram_body i fig s) = after_draws (legacy_gauss (F := F)) 2000 s.
Proof. unfold histogram_body, bind, ret. run_states. reflexivity. Qed.

Lemma box_body_consumes (cat : string) (acc : Columns (F := F)) (s : St) :
  snd (box_body cat acc s) = after_box_category (F := F) s.
Proof.
  unfold box_body, np_random_uniform, after_box_category, bind, ret.
  run_states. reflexivity.
Qed.

Lemma violin_body_consumes (cat : ascii) (acc : Columns (F := F)) (s : St) :
  snd (violin_body cat acc s) = after_draws (legacy_gauss (F := F)) 1000 s.
Proof. unfold violin_body, bind, ret. run_states. reflexivity. Qed.

Lemma area_series_consumes (i : Z) (y_data : list (list F)) (s : St) :
  snd (area_series i y_data s) = after_draws (legacy_gauss (F := F)) 500 s.
Proof. unfold area_series, bind, ret. run_states. reflexivity. Qed.

Lemma scatter_rng_at_loop (i : Z) (fig : Figure F) (st : St) :
  snd (for_each (range i) scatter_body fig st) = scatter_rng_at i st.
Proof.
  unfold scatter_rng_at.
  rewrite (for_each_consumes scatter_body _ _ scatter_body_consumes).
  rewrite range_length. reflexivity.
Qed.

(** ** The series of the scatter figure *)

Lemma for_each_extends {A X O} (obs : X -> list O)
    (body : A -> X -> Rand (St := St) X) :
  (forall a x s, exists e, obs (fst (body a x s)) = (obs x ++ e)%list) ->
  forall l x s,
    exists e, obs (fst (for_each l body x s)) = (obs x ++ e)%list.
Proof.
  intros Hbody. induction l as [| a l IH]; intros x s.
  - exists []. cbn [for_each]. unfold ret. cbn [fst].
    rewrite app_nil_r. reflexivity.
  - cbn [for_each]. unfold bind.
    destruct (Hbody a x s) as [e1 E1]. destruct (body a x s) as [x' s'].
    destruct (IH x' s') as [e2 E2]. cbn [fst] in E1.
    exists (e1 ++ e2)%list. rewrite E2, E1, app_assoc. reflexivity.
Qed.

Lemma range_split (n i : nat) :
  (i < n)%nat ->
  range (Z.of_nat n)
  = (range (Z.of_nat i) ++
     Z.of_nat i :: map Z.of_nat (seq (S i) (n - S i)))%list.
Proof.
  intros B. unfold range. rewrite !Nat2Z.id.
  replace n with (i + S (n - S i))%nat at 1 by lia.
  rewrite seq_app, map_app. reflexivity.
Qed.

Lemma scatter_body_state (i : Z) (f1 f2 : Figure F) (s : St) :
  snd (scatter_body i f1 s) = snd (scatter_body i f2 s).
Proof.
  unfold scatter_body, bind, ret. run_draws. reflexivity.
Qed.

Lemma scatter_body_series (i : Z) (fig : Figure F) (s : St) :
  exists tr cell,
    data (fst (scatter_body i fig s)) = (data fig ++ [(tr, cell)])%list /\
    scatter_xy tr
    = Some (let '(gx, gy, _) := three_samples s in
            (add_int gx (2 * (i mod 10)), add_int gy (2 * (i / 10)))).
Proof.
  unfold scatter_body, three_samples, bind, ret. run_draws.
  eexists. eexists. cbn [fst add_trace data]. split; [reflexivity |].
  cbn [scatter_xy]. rewrite (Z.mul_comm 2 (i mod 10)).
  rewrite (Z.mul_comm 2 (i / 10)). reflexivity.
Qed.

Lemma scatter_body_appends (i : Z) (fig : Figure F) (s : St) :
  exists e, data (fst (scatter_body i fig s)) = (data fig ++ e)%list.
Proof.
  destruct (scatter_body_series i fig s) as (tr & cell & E & _).
  eexists. exact E.
Qed.

Lemma scatter_loop_series (n i : nat) (fig : Figure F) (st : St) :
  (i < n)%nat -> data fig = [] ->
  series_xy (fst (for_each (range (Z.of_nat n)) scatter_body fig st)) i
  = Some (scatter_xy_doubled (Z.of_nat i) st).
Proof.
  intros B D. rewrite (range_split n i B), for_each_app.
  pose proof (for_each_observed (cells (F := F)) scatter_body _
                scatter_body_cell (range (Z.of_nat i)) fig st) as C.
  pose proof (scatter_rng_at_loop (Z.of_nat i) fig st) as Hst.
  destruct (for_each (range (Z.of_nat i)) scatter_body fig st) as [f1 s1].
  cbn [fst snd] in *. cbn [for_each]. unfold bind at 1.
  destruct (scatter_body_series (Z.of_nat i) f1 s1) as (tr & cell & E & XY).
  destruct (scatter_body (Z.of_nat i) f1 s1) as [f2 s2]. cbn [fst] in E.
  destruct (for_each_extends (data (F := F)) scatter_body
              scatter_body_appends
              (map Z.of_nat (seq (S i) (n - S i))) f2 s2) as [e X].
  unfold series_xy. rewrite X, E.
  assert (L : List.length (data f1) = i).
  { apply (f_equal (@List.length _)) in C. unfold cells in C.
    rewrite length_map, length_app, length_map, D in C.
    cbn [List.length Nat.add] in C. rewrite C. clear.
    rewrite <- (Nat2Z.id i) at 2. rewrite <- range_length.
    induction (range (Z.of_nat i)) as [| k l IH]; [reflexivity |].
    cbn [flat_map app List.length]. rewrite IH. reflexivity. }
  rewrite <- app_assoc, nth_error_app2 by lia.
  rewrite L, Nat.sub_diag. cbn [app nth_error]. rewrite XY.
  unfold scatter_xy_doubled, scatter_draws.
  rewrite <- Hst. reflexivity.
Qed.

Lemma scatter_xy_doubled_lengths (i : Z) (st : St) :
  List.length (fst (scatter_xy_doubled i st)) = 1000%nat /\
  List.length (snd (scatter_xy_doubled i st)) = 1000%nat.
Proof.
  unfold scatter_xy_doubled, scatter_draws, three_samples.
  run_draws. draw_lengths. cbn [fst snd].
  rewrite !add_int_length. split; assumption.
Qed.

(** C2, as the code has it.  The scatter figure has exactly 50 series.
    Series [i] has its own stretch of the generator's stream: the three
    samples of 1000 gaussian draws that follow the first [3000 * i]
    draws made from the state of the call.  Its 1000 points have the
    first of these samples moved by 2 * (i % 10) as x and the second
    moved by 2 * (i // 10) as y. *)
Theorem scatter_series_doubled_offsets (idx : Z) (st : St) :
  exists fig st',
    generate_plot (F := F) "scatter" idx st = (inr fig, st') /\
    List.length (data fig) = 50%nat /\
    forall i : nat,
      (i < 50)%nat ->
      series_xy fig i = Some (scatter_xy_doubled (Z.of_nat i) st) /\
      List.length (fst (scatter_xy_doubled (Z.of_nat i) st)) = 1000%nat /\
      List.length (snd (scatter_xy_doubled (Z.of_nat i) st)) = 1000%nat /\
      scatter_xy_doubled (Z.of_nat i) st
      = (let '(gx, gy, _) :=
           three_samples
             (after_draws (legacy_gauss (F := F)) (i * 3000) st) in
         (add_int gx (2 * (Z.of_nat i mod 10)),
          add_int gy (2 * (Z.of_nat i / 10)))).
Proof.
  pose proof (scatter_shapes idx st) as SH. revert SH.
  enter_branch.
  pose proof (fun i B =>
    scatter_loop_series 50 i
      (make_subplots 2 2 ["Scatter 1"; "Scatter 2"; "Scatter 3"; "Scatter 4"]
         false false)
      st B eq_refl) as SER.
  change (range (Z.of_nat 50)) with (range 50) in SER.
  match goal with
  | |- context [for_each ?l scatter_body ?fig st] =>
      change fig with (make_subplots (F := F) 2 2
        ["Scatter 1"; "Scatter 2"; "Scatter 3"; "Scatter 4"] false false);
      destruct (for_each l scatter_body
        (make_subplots 2 2
           ["Scatter 1"; "Scatter 2"; "Scatter 3"; "Scatter 4"]
           false false) st)
        as [fig' st']
  end.
  cbn [fst] in *. intros SH. eexists. eexists. split; [reflexivity |].
  split.
  - injection SH as SH. apply (f_equal (@List.length _)) in SH.
    unfold shapes in SH. rewrite length_map in SH. exact SH.
  - intros i B. split; [rewrite <- (SER i B); reflexivity |].
    split; [apply scatter_xy_doubled_lengths |].
    split; [apply scatter_xy_doubled_lengths |].
    unfold scatter_xy_doubled, scatter_draws, scatter_rng_at.
    rewrite Nat2Z.id. reflexivity.
Qed.

(** ** The funnel values are in descending order *)

Section Sorted.

Variable D : list F.

Hypothesis fle_total :
  forall a b, In a D -> In b D -> fle a b = true \/ fle b a = true.

Hypothesis fle_trans :
  forall a b c, In a D -> In b D -> In c D ->
    fle a b = true -> fle b c = true -> fle a c = true.

Lemma insert_sorted_sorted (v : F) (l : list F) :
  In v D -> incl l D ->
  StronglySorted (fun a b => fle a b = true) l ->
  StronglySorted (fun a b => fle a b = true) (insert_sorted v l).
Proof.
  intros Iv Il SS. induction SS as [| w l SS IH FA].
  - constructor; constructor.
  - assert (Iw : In w D) by (apply Il; left; reflexivity).
    assert (Il' : incl l D) by (intros x Ix; apply Il; right; exact Ix).
    cbn [insert_sorted]. destruct (fle v w) eqn:E.
    + constructor; [constructor; assumption |].
      constructor; [exact E |].
      rewrite Forall_forall in *. intros x Ix.
      apply (fle_trans v w x); auto.
    + constructor; [apply IH; exact Il' |].
      apply (Permutation_Forall (Permutation_sym (insert_sorted_perm v l))).
      constructor; [| exact FA].
      destruct (fle_total v w Iv Iw) as [T | T]; [congruence | exact T].
Qed.

Lemma np_sort_sorted (a : list F) :
  incl a D -> StronglySorted (fun x y => fle x y = true) (np_sort a).
Proof.
  induction a as [| v l IH]; intros I; [constructor |].
  cbn [np_sort]. apply insert_sorted_sorted.
  - apply I. left. reflexivity.
  - intros x Ix. apply I. right.
    apply (Permutation_in x (np_sort_perm l)). exact Ix.
  - apply IH. intros x Ix. apply I. right. exact Ix.
Qed.

End Sorted.

Lemma sorted_snoc {A} (R : A -> A -> Prop) (l : list A) (a : A) :
  StronglySorted R l -> Forall (fun x => R x a) l ->
  StronglySorted R (l ++ [a]).
Proof.
  intros SS. induction SS as [| w l SS IH FA]; intros FR.
  - constructor; constructor.
  - cbn [app]. inversion FR as [| ? ? Rw FR']; subst.
    constructor; [apply IH; exact FR' |].
    apply Forall_app. split; [exact FA | constructor; [exact Rw | constructor]].
Qed.

Lemma sorted_rev {A} (R : A -> A -> Prop) (l : list A) :
  StronglySorted R l -> StronglySorted (fun a b => R b a) (List.rev l).
Proof.
  intros SS. induction SS as [| w l SS IH FA]; [constructor |].
  cbn [List.rev]. apply sorted_snoc; [exact IH |].
  apply Forall_rev. exact FA.
Qed.

(** C9.  The funnel figure has one trace with the 15 stage labels
    [Stage_00] to [Stage_14]; its 15 values are the 15 exponential
    draws (scale 100) rearranged so that each is at least every later
    one, and the trace asks for the value and the percentage of the
    first stage as text.  The comparison of doubles is assumed total
    and transitive on the values drawn. *)
Theorem funnel_stages_descending (idx : Z) (st : St) :
  let draws := fst (np_random_exponential (F := F) (of_int 100) 15 st) in
  (forall a b, In a draws -> In b draws ->
     fle a b = true \/ fle b a = true) ->
  (forall a b c, In a draws -> In b draws -> In c draws ->
     fle a b = true -> fle b c = true -> fle a c = true) ->
  exists values st',
    generate_plot (F := F) "funnel" idx st
    = (inr (mkFigure None
              [(Funnel ["Stage_00"; "Stage_01"; "Stage_02"; "Stage_03";
                        "Stage_04"; "Stage_05"; "Stage_06"; "Stage_07";
                        "Stage_08"; "Stage_09"; "Stage_10"; "Stage_11";
                        "Stage_12"; "Stage_13"; "Stage_14"]
                       values "value+percent initial", None)]
              (mkLayout (Some ("Plot " ++ str (idx + 1)
                                 ++ ": Funnel Chart (15 stages)"))
                        None None)), st') /\
    List.length values = 15%nat /\
    Permutation values draws /\
    StronglySorted (fun a b => fle b a = true) values.
Proof.
  intros draws T Tr. subst draws. enter_branch.
  pose proof (exponential_length (of_int 100) 15 st) as L.
  destruct (np_random_exponential (of_int 100) 15 st) as [e st'].
  cbn [fst] in *. eexists. eexists. split; [reflexivity |].
  split; [| split].
  - rewrite length_rev, np_sort_length. exact L.
  - eapply perm_trans; [apply Permutation_sym, Permutation_rev |].
    apply np_sort_perm.
  - apply sorted_rev. apply (np_sort_sorted e T Tr). apply incl_refl.
Qed.


(** * Further properties of the driver *)

Lemma range_nonpositive (n : Z) : n <= 0 -> range n = [].
Proof.
  intros N. unfold range. replace (Z.to_nat n) with 0%nat by lia.
  reflexivity.
Qed.

Lemma range_succ (k : nat) :
  range (Z.of_nat (S k)) = (range (Z.of_nat k) ++ [Z.of_nat k])%list.
Proof.
  unfold range. rewrite !Nat2Z.id, seq_S, map_app. reflexivity.
Qed.

(** X1.  A count that is zero or negative is no error: the loop body
    never runs, so [generate_plots(n)] leaves the world untouched, and a
    [PLOT_COUNT] holding the decimal text of such a number, of at most
    4300 digits, makes [generate_plots()] read the environment and do
    nothing else. *)
Theorem generate_plots_nonpositive (n : Z) (show_progress : bool)
    (w : World (F := F) (St := St)) :
  n <= 0 ->
  generate_plots (Some n) show_progress w = (inr tt, w) /\
  (lookup_env "PLOT_COUNT" (environ w) = Some (codes (str n)) ->
   decimal_digits n <= 4300 ->
   generate_plots None show_progress w
   = (inr tt, emit (Getenv "PLOT_COUNT") w)).
Proof.
  intros N. split.
  - cbn [generate_plots]. rewrite (range_nonpositive n N). reflexivity.
  - intros E L. unfold generate_plots, get_plot_count, os_getenv.
    rewrite E, py_int_str.
    destruct (Z.ltb_spec int_max_str_digits (decimal_digits n));
      [unfold int_max_str_digits in *; lia |].
    rewrite (range_nonpositive n N). reflexivity.
Qed.

(** X2.  [generate_plots()] without a count reads [PLOT_COUNT] once and
    then is [generate_plots(n)] for the number [int()] reads, or for 4
    when the variable is unset; when [int()] raises, the error comes out
    and nothing but the read has happened.  It raises exactly when the
    variable is set to a text that is not an integer literal of at most
    4300 digits. *)
Theorem generate_plots_default_count (show_progress : bool)
    (w : World (F := F) (St := St)) :
  let w0 := emit (Getenv "PLOT_COUNT") w in
  match lookup_env "PLOT_COUNT" (environ w) with
  | None =>
      generate_plots None show_progress w
      = generate_plots (Some 4) show_progress w0
  | Some s =>
      match py_int s with
      | inr n =>
          generate_plots None show_progress w
          = generate_plots (Some n) show_progress w0
      | inl e =>
          generate_plots None show_progress w = (inl e, w0)
      end
  end /\
  ((exists e, fst (generate_plots None show_progress w) = inl e)
   <-> exists s, lookup_env "PLOT_COUNT" (environ w) = Some s /\
                 ~ (exists n k, int_literal s n k /\ k <= 4300)).
Proof.
  cbv zeta. unfold generate_plots, get_plot_count, os_getenv.
  destruct (lookup_env "PLOT_COUNT" (environ w)) as [s |].
  - destruct (py_int s) as [e | n] eqn:P.
    + split; [reflexivity |]. split.
      * intros _. exists s. split; [reflexivity |].
        intros (n & k & L & K).
        assert (Q : py_int s = inr n)
          by (apply py_int_spec; exists k; split; assumption).
        congruence.
      * intros _. eexists. reflexivity.
    + split; [reflexivity |]. split.
      * intros [e E].
        destruct (driver_loop_runs show_progress (range n)
                    (emit (Getenv "PLOT_COUNT") w)) as (w' & L & _).
        rewrite L in E. discriminate E.
      * intros (s' & E & NL). injection E as <-. exfalso. apply NL.
        apply py_int_spec in P. destruct P as (k & L & K).
        exists n, k. split; assumption.
  - split; [reflexivity |]. split.
    + intros [e E]. change (py_int (codes "4")) with (@inr exn Z 4) in E.
      destruct (driver_loop_runs show_progress (range 4)
                  (emit (Getenv "PLOT_COUNT") w)) as (w' & L & _).
      cbv iota in E. rewrite L in E. discriminate E.
    + intros (s' & E & _). discriminate E.
Qed.

Lemma progress_count (k : nat) :
  List.length
    (filter is_printed (flat_map (step_marks true) (range (Z.of_nat k))))
  = Z.to_nat (Z.of_nat k / 10).
Proof.
  induction k as [| k IH]; [reflexivity |].
  rewrite range_succ, flat_map_app, filter_app, length_app, IH.
  cbn [flat_map step_marks andb app filter is_printed].
  rewrite Nat2Z.inj_succ. unfold Z.succ.
  destruct ((Z.of_nat k + 1) mod 10 =? 0) eqn:E.
  - apply Z.eqb_eq in E. cbn [app filter is_printed List.length].
    assert (Q : (Z.of_nat k + 1) / 10 = Z.of_nat k / 10 + 1).
    { pose proof (Nat2Z.is_nonneg k).
      Z.div_mod_to_equations. lia. }
    rewrite Q. pose proof (Z.div_pos (Z.of_nat k) 10). lia.
  - apply Z.eqb_neq in E. cbn [app filter is_printed List.length].
    assert (Q : (Z.of_nat k + 1) / 10 = Z.of_nat k / 10).
    { pose proof (Nat2Z.is_nonneg k).
      Z.div_mod_to_equations. lia. }
    rewrite Q. lia.
Qed.

(** X3.  With progress on, a run of [n] plots prints exactly [n // 10]
    progress lines (none for a negative count): fewer than ten plots
    print nothing. *)
Theorem generate_plots_progress_count (n : Z)
    (w : World (F := F) (St := St)) :
  exists w',
    generate_plots (Some n) true w = (inr tt, w') /\
    List.length (filter is_printed (map mark (events w')))
    = (List.length (filter is_printed (map mark (events w)))
       + Z.to_nat (n / 10))%nat.
Proof.
  cbn [generate_plots].
  destruct (driver_loop_runs true (range n) w) as (w' & L & _ & M & _).
  exists w'. split; [exact L |].
  rewrite M, filter_app, length_app. f_equal.
  destruct (Z.le_gt_cases 0 n) as [P | N].
  - rewrite <- (Z2Nat.id n P) at 1 2. rewrite progress_count.
    rewrite Z2Nat.id by exact P. reflexivity.
  - rewrite range_nonpositive by lia. cbn [flat_map filter List.length].
    assert (n / 10 < 0) by (Z.div_mod_to_equations; lia). lia.
Qed.

Lemma step_marks_not_printed (show_progress : bool) (l : list Z) :
  filter not_printed (flat_map (step_marks show_progress) l)
  = repeat Shown (List.length l).
Proof.
  induction l as [| i l IH]; [reflexivity |].
  cbn [flat_map List.length repeat]. rewrite filter_app, IH.
  unfold step_marks.
  destruct (show_progress && ((i + 1) mod 10 =? 0))%bool; reflexivity.
Qed.

Lemma driver_loop_rng (l : list Z) :
  forall (sp1 sp2 : bool) (w1 w2 : World (F := F) (St := St)),
    rng w1 = rng w2 ->
    rng (snd (driver_loop sp1 l w1)) = rng (snd (driver_loop sp2 l w2)).
Proof.
  induction l as [| i l IH]; intros sp1 sp2 w1 w2 R; [exact R |].
  cbn [driver_loop].
  destruct (driver_step_runs sp1 i w1) as (f1 & s1 & G1 & E1).
  destruct (driver_step_runs sp2 i w2) as (f2 & s2 & G2 & E2).
  rewrite E1, E2. apply IH. cbn [rng].
  rewrite R in G1. rewrite G1 in G2. injection G2 as _ <-. reflexivity.
Qed.

(** X4.  The progress flag only adds printed lines: with it on or off a
    run shows the same figures, leaves the generator in the same state
    and the environment as it was, and the two logs agree once the
    printed lines are dropped. *)
Theorem show_progress_only_prints (n : Z) (w : World (F := F) (St := St)) :
  exists w1 w2,
    generate_plots (Some n) true w = (inr tt, w1) /\
    generate_plots (Some n) false w = (inr tt, w2) /\
    shown (events w1) = shown (events w2) /\
    rng w1 = rng w2 /\
    environ w1 = environ w /\ environ w2 = environ w /\
    filter not_printed (map mark (events w1))
    = filter not_printed (map mark (events w2)).
Proof.
  cbn [generate_plots].
  pose proof (driver_loop_rng (range n) true false w w eq_refl) as R.
  destruct (driver_loop_runs true (range n) w) as (w1 & L1 & E1 & M1 & S1).
  destruct (driver_loop_runs false (range n) w) as (w2 & L2 & E2 & M2 & S2).
  rewrite L1, L2 in R. cbn [snd] in R.
  exists w1, w2. repeat split; try assumption.
  - rewrite S1, S2. reflexivity.
  - rewrite M1, M2, !filter_app, !step_marks_not_printed. reflexivity.
Qed.

(** * The index in the title *)

Lemma string_of_uint_no_colon (d : Decimal.uint) (c : ascii) :
  In c (list_ascii_of_string (NilEmpty.string_of_uint d)) -> c <> ":"%char.
Proof.
  induction d; cbn [NilEmpty.string_of_uint list_ascii_of_string In];
    intros I; [destruct I | ..]; destruct I as [<- | I];
    try discriminate; auto.
Qed.

Lemma str_no_colon (n : Z) (c : ascii) :
  In c (list_ascii_of_string (str n)) -> c <> ":"%char.
Proof.
  destruct n as [| p | p]; cbn [str].
  - intros [<- | []]. discriminate.
  - apply string_of_uint_no_colon.
  - cbn [append list_ascii_of_string In]. intros [<- | I]; [discriminate |].
    apply (string_of_uint_no_colon (Pos.to_uint p)). exact I.
Qed.

Lemma before_colon_unique (u : string) :
  forall v x y,
    (forall c, In c (list_ascii_of_string u) -> c <> ":"%char) ->
    (forall c, In c (list_ascii_of_string v) -> c <> ":"%char) ->
    u ++ String ":" x = v ++ String ":" y -> u = v.
Proof.
  induction u as [| a u IH]; intros [| b v] x y Hu Hv E.
  - reflexivity.
  - cbn [append] in E. injection E as E _. exfalso.
    apply (Hv b); [left; reflexivity | symmetry; exact E].
  - cbn [append] in E. injection E as E _. exfalso.
    apply (Hu a); [left; reflexivity | exact E].
  - cbn [append] in E. injection E as -> E. f_equal.
    apply (IH v x y); [| | exact E].
    + intros c I. apply Hu. right. exact I.
    + intros c I. apply Hv. right. exact I.
Qed.

Lemma plot_title_injective (i1 i2 : Z) (d1 d2 : string) :
  plot_title i1 d1 = plot_title i2 d2 -> i1 = i2.
Proof.
  unfold plot_title. cbn [append]. intros E.
  injection E as E.
  apply before_colon_unique in E; try apply str_no_colon.
  apply str_injective in E. lia.
Qed.

(** The title [generate_plot] gives the figure of a catalog tag. *)
Lemma generate_plot_title (t : string) :
  In t PLOT_TYPES ->
  exists description,
    forall (idx : Z) (st : St),
      result_title (generate_plot (F := F) t idx st)
      = Some (plot_title idx description).
Proof.
  intros I. unfold PLOT_TYPES in I. cbn [In] in I.
  repeat (destruct I as [<- | I]);
    [.. | destruct I];
    eexists; intros idx st; enter_branch; unfold result_title;
    run_draws;
    cbn [fst update_layout px_box px_violin layout title]; reflexivity.
Qed.

(** X6.  The index does reach the title: whenever two calls for one tag
    return, the figures carry titles, and for different indices the
    titles differ, whatever the generator states. *)
Theorem generate_plot_titles_differ (t : string) (i1 i2 : Z) (s1 s2 : St)
    (f1 f2 : Figure F) (s1' s2' : St) :
  generate_plot_limited t i1 s1 = (inr f1, s1') ->
  generate_plot_limited t i2 s2 = (inr f2, s2') ->
  i1 <> i2 ->
  title (layout f1) <> None /\
  title (layout f1) <> title (layout f2).
Proof.
  intros R1 R2 N.
  apply generate_plot_limited_returns in R1 as [R1 _].
  apply generate_plot_limited_returns in R2 as [R2 _].
  assert (I : In t PLOT_TYPES).
  { destruct (generate_plot_cases t i1 s1) as [[I _] | [_ R]];
      [exact I | rewrite R in R1; discriminate R1]. }
  destruct (generate_plot_title t I) as [d T].
  pose proof (T i1 s1) as T1. pose proof (T i2 s2) as T2.
  unfold result_title in T1, T2. rewrite R1 in T1. rewrite R2 in T2.
  cbn [fst] in T1, T2. rewrite T1, T2. split; [discriminate |].
  intros E. apply N, (plot_title_injective i1 i2 d d). congruence.
Qed.

(** * Traces and the subplot grid *)

Lemma for_each_invariant {A X} (P : X -> Prop)
    (body : A -> X -> Rand (St := St) X) :
  (forall a x s, P x -> P (fst (body a x s))) ->
  forall l x s, P x -> P (fst (for_each l body x s)).
Proof.
  intros Hbody. induction l as [| a l IH]; intros x s Px; [exact Px |].
  cbn [for_each]. unfold bind.
  specialize (Hbody a x s Px). destruct (body a x s) as [x' s'].
  apply IH. exact Hbody.
Qed.

Ltac keeps_grid :=
  intros; unfold scatter_body, line_body, bar_body, histogram_body,
    bind, ret;
  run_draws; cbn [fst add_trace grid]; assumption.

Ltac grid_of_loop :=
  enter_branch; unfold result_grid;
  match goal with
  | |- context [for_each ?l ?body ?fig ?st] =>
      let G := fresh "G" in
      assert (G : grid (fst (for_each l body fig st)) = grid fig)
        by (apply (for_each_invariant (fun f => grid f = grid fig));
            [keeps_grid | reflexivity]);
      destruct (for_each l body fig st); cbn [fst] in *;
      cbn [update_layout grid]; rewrite G; reflexivity
  end.

Lemma scatter_grid (idx : Z) (st : St) :
  result_grid (generate_plot (F := F) "scatter" idx st)
  = Some (Some (mkSubplots 2 2
                  ["Scatter 1"; "Scatter 2"; "Scatter 3"; "Scatter 4"]
                  false false)).
Proof. grid_of_loop. Qed.

Lemma line_grid (idx : Z) (st : St) :
  result_grid (generate_plot (F := F) "line" idx st)
  = Some (Some (mkSubplots 2 2 ["Line 1"; "Line 2"; "Line 3"; "Line 4"]
                  false false)).
Proof. grid_of_loop. Qed.

Lemma bar_grid (idx : Z) (st : St) :
  result_grid (generate_plot (F := F) "bar" idx st)
  = Some (Some (mkSubplots 2 2 ["Bar 1"; "Bar 2"; "Bar 3"; "Bar 4"]
                  false false)).
Proof. grid_of_loop. Qed.

Lemma histogram_grid (idx : Z) (st : St) :
  result_grid (generate_plot (F := F) "histogram" idx st) = Some None.
Proof. grid_of_loop. Qed.

Lemma histogram_body_cell (i : Z) (fig : Figure F) (s : St) :
  cells (fst (histogram_body i fig s)) = (cells fig ++ [None])%list.
Proof. unfold histogram_body. body_shape. Qed.

Lemma histogram_cells (idx : Z) (st : St) :
  result_cells (generate_plot (F := F) "histogram" idx st)
  = Some [None; None; None].
Proof.
  enter_branch.
  figure_loop (cells (F := F)) (fun _ : Z => [@None (Z * Z)])
    histogram_body_cell.
  rewrite update_layout_cells, O. reflexivity.
Qed.

Lemma area_traces_cells (x : list F) (pairs : list (Z * list F)) :
  forall fig,
    cells (fold_left (area_trace x) pairs fig)
    = (cells fig ++ map (fun _ => None) pairs)%list.
Proof.
  induction pairs as [| [i y] pairs IH]; intros fig.
  - cbn [fold_left map]. rewrite app_nil_r. reflexivity.
  - cbn [fold_left map]. rewrite IH. unfold area_trace, cells, add_trace.
    cbn [data]. rewrite map_app. cbn [map snd].
    rewrite <- app_assoc. reflexivity.
Qed.

Lemma area_traces_grid (x : list F) (pairs : list (Z * list F)) :
  forall fig, grid (fold_left (area_trace x) pairs fig) = grid fig.
Proof.
  induction pairs as [| [i y] pairs IH]; intros fig; [reflexivity |].
  cbn [fold_left]. rewrite IH. reflexivity.
Qed.

Lemma area_grid_cells (idx : Z) (st : St) :
  result_grid (generate_plot (F := F) "area" idx st) = Some None /\
  result_cells (generate_plot (F := F) "area" idx st)
  = Some [None; None; None; None; None].
Proof.
  enter_branch. unfold result_grid.
  match goal with
  | |- context [for_each ?l area_series ?acc st] =>
      pose proof (for_each_observed (map (@List.length F)) area_series
                    (fun _ => [500%nat]) area_series_lengths l acc st) as O;
      destruct (for_each l area_series acc st) as [y_data st']
  end.
  cbn [fst] in *. split.
  - cbn [update_layout grid]. rewrite area_traces_grid. reflexivity.
  - rewrite update_layout_cells, area_traces_cells.
    rewrite <- (map_map snd (fun _ : list F => @None (Z * Z))).
    rewrite enumerate_snd.
    rewrite <- (map_map (@List.length F) (fun _ : nat => @None (Z * Z))).
    rewrite O. reflexivity.
Qed.

Lemma single_trace_grid_cells (t : string) (idx : Z) (st : St) :
  In t ["box"; "heatmap"; "pie"; "violin"; "funnel"] ->
  result_grid (generate_plot (F := F) t idx st) = Some None /\
  result_cells (generate_plot (F := F) t idx st) = Some [None].
Proof.
  cbn [In]. intros I.
  repeat (destruct I as [<- | I]); [.. | destruct I];
    enter_branch; unfold result_grid; run_draws; split; reflexivity.
Qed.

Lemma grid_cell_fits (s : Z) (titles : list string) (sx sy : bool) :
  cell_fits (Some (mkSubplots 2 2 titles sx sy)) (Some (grid_cell s)).
Proof.
  unfold cell_fits, grid_cell. cbn [grid_rows grid_cols].
  Z.div_mod_to_equations. lia.
Qed.

Lemma grid_cells_fit (n : Z) (titles : list string) (sx sy : bool) :
  Forall (cell_fits (Some (mkSubplots 2 2 titles sx sy)))
         (map (fun s => Some (grid_cell s)) (range n)).
Proof.
  apply Forall_map, Forall_forall. intros s _. apply grid_cell_fits.
Qed.


(** X8.  The 50 scatter series are spread over the four cells as evenly
    as 50 allows, 13 in each cell of the first row and 12 in each cell
    of the second; the line and the bar figure put exactly one series in
    every cell. *)
Theorem traces_per_cell (idx : Z) (st : St) :
  exists scatter line bar,
    result_cells (generate_plot (F := F) "scatter" idx st) = Some scatter /\
    result_cells (generate_plot (F := F) "line" idx st) = Some line /\
    result_cells (generate_plot (F := F) "bar" idx st) = Some bar /\
    traces_at 1 1 scatter = 13%nat /\ traces_at 1 2 scatter = 13%nat /\
    traces_at 2 1 scatter = 12%nat /\ traces_at 2 2 scatter = 12%nat /\
    forall row col,
      1 <= row <= 2 -> 1 <= col <= 2 ->
      traces_at row col line = 1%nat /\ traces_at row col bar = 1%nat.
Proof.
  eexists. eexists. eexists.
  split; [apply scatter_cells |]. split; [apply line_cells |].
  split; [apply bar_cells |].
  repeat (split; [reflexivity |]).
  intros row col R C.
  assert (row = 1 \/ row = 2) as [-> | ->] by lia;
    assert (col = 1 \/ col = 2) as [-> | ->] by lia;
    split; reflexivity.
Qed.

(** * What each figure consumes from the generator *)

Ltac loop_consumes H :=
  enter_branch; unfold returns;
  match goal with
  | |- context [for_each ?l ?body ?x ?st] =>
      let C := fresh "C" in
      pose proof (H l x st) as C;
      destruct (for_each l body x st); cbn [snd] in *
  end.

(** X9.  What a figure takes from the generator depends on its tag
    alone: scatter takes 50 x 3 x 1000 gaussian draws (x, y and the
    marker colours of every series), line 4 x 2000, histogram 3 x 2000,
    heatmap 100 x 100, violin 5 x 1000 and area 5 x 500 gaussian draws;
    bar takes 4 x 50, pie 25 and funnel 15 exponential draws; box takes,
    twenty times over, one uniform draw and then 200 gaussian draws. *)
Theorem generator_consumption (idx : Z) (st : St) :
  let left tag := snd (generate_plot (F := F) tag idx st) in
  let gauss := legacy_gauss (F := F) in
  let expo := legacy_standard_exponential (F := F) in
  left "scatter" = after_draws gauss (50 * (3 * 1000)) st /\
  left "line" = after_draws gauss (4 * 2000) st /\
  left "bar" = after_draws expo (4 * 50) st /\
  left "histogram" = after_draws gauss (3 * 2000) st /\
  left "box" = Nat.iter 20 (after_box_category (F := F)) st /\
  left "heatmap" = after_draws gauss (100 * 100) st /\
  left "pie" = after_draws expo 25 st /\
  left "violin" = after_draws gauss (5 * 1000) st /\
  left "area" = after_draws gauss (5 * 500) st /\
  left "funnel" = after_draws expo 15 st.
Proof.
  cbv zeta. repeat split.
  - loop_consumes (for_each_consumes scatter_body _ _ scatter_body_consumes).
    exact C.
  - loop_consumes (for_each_consumes line_body _ _ line_body_consumes).
    exact C.
  - enter_branch. unfold returns.
    match goal with
    | |- context [for_each ?l (bar_body ?cats) ?x st] =>
        pose proof (for_each_consumes (bar_body cats) _ _
                      (bar_body_consumes cats) l x st) as C;
        destruct (for_each l (bar_body cats) x st); cbn [snd] in *
    end.
    exact C.
  - loop_consumes
      (for_each_consumes histogram_body _ _ histogram_body_consumes).
    exact C.
  - loop_consumes (for_each_steps box_body _ box_body_consumes).
    exact C.
  - enter_branch. unfold returns.
    pose proof (after_draws_nested (legacy_gauss (F := F)) 100 100 st) as C.
    unfold np_random_randn2, np_random_randn.
    destruct (replicateM 100 (replicateM 100 legacy_gauss) st).
    exact C.
  - enter_branch. unfold returns.
    pose proof (exponential_state (of_int 10) 25 st) as C.
    destruct (np_random_exponential (of_int 10) 25 st). exact C.
  - loop_consumes (for_each_consumes violin_body _ _ violin_body_consumes).
    exact C.
  - loop_consumes (for_each_consumes area_series _ _ area_series_consumes).
    exact C.
  - enter_branch. unfold returns.
    pose proof (exponential_state (of_int 100) 15 st) as C.
    destruct (np_random_exponential (of_int 100) 15 st). exact C.
Qed.

(** * More on the data of the figures *)

Lemma scatter_loop_trace
    (Q : Z -> St -> Trace F * option (Z * Z) -> Prop) :
  (forall i fig s,
     exists p,
       data (fst (scatter_body i fig s)) = (data fig ++ [p])%list /\
       Q i s p) ->
  forall (n i : nat) (fig : Figure F) (st : St),
    (i < n)%nat -> data fig = [] ->
    exists p,
      nth_error
        (data (fst (for_each (range (Z.of_nat n)) scatter_body fig st))) i
      = Some p /\
      Q (Z.of_nat i) (scatter_rng_at (Z.of_nat i) st) p.
Proof.
  intros Hbody n i fig st B D.
  rewrite (range_split n i B), for_each_app.
  pose proof (for_each_observed (cells (F := F)) scatter_body _
                scatter_body_cell (range (Z.of_nat i)) fig st) as C.
  pose proof (scatter_rng_at_loop (Z.of_nat i) fig st) as Hst.
  destruct (for_each (range (Z.of_nat i)) scatter_body fig st) as [f1 s1].
  cbn [fst snd] in *. cbn [for_each]. unfold bind at 1.
  destruct (Hbody (Z.of_nat i) f1 s1) as (p & E & HQ).
  destruct (scatter_body (Z.of_nat i) f1 s1) as [f2 s2]. cbn [fst] in E.
  destruct (for_each_extends (data (F := F)) scatter_body
              scatter_body_appends
              (map Z.of_nat (seq (S i) (n - S i))) f2 s2) as [e X].
  exists p. rewrite X, E.
  assert (L : List.length (data f1) = i).
  { apply (f_equal (@List.length _)) in C. unfold cells in C.
    rewrite length_map, length_app, length_map, D in C.
    cbn [List.length Nat.add] in C. rewrite C. clear.
    rewrite <- (Nat2Z.id i) at 2. rewrite <- range_length.
    induction (range (Z.of_nat i)) as [| k l IH]; [reflexivity |].
    cbn [flat_map app List.length]. rewrite IH. reflexivity. }
  split.
  - rewrite <- app_assoc, nth_error_app2 by lia.
    rewrite L, Nat.sub_diag. reflexivity.
  - rewrite <- Hst. exact HQ.
Qed.

Lemma scatter_body_marker (i : Z) (fig : Figure F) (s : St) :
  exists p,
    data (fst (scatter_body i fig s)) = (data fig ++ [p])%list /\
    (trace_marker (fst p)
     = Some (mkMarker 2 (snd (three_samples s)) "Viridis" false) /\
     trace_name (fst p) = Some ("Dataset " ++ str (i + 1)) /\
     List.length (snd (three_samples s)) = 1000%nat).
Proof.
  unfold scatter_body, three_samples, bind, ret. run_draws.
  eexists. cbn [fst snd add_trace data trace_marker trace_name].
  split; [reflexivity |]. split; [reflexivity |]. split; [reflexivity |].
  draw_lengths. assumption.
Qed.

(** X10.  Every series of the scatter figure is drawn with markers of
    size 2 on the Viridis scale without a colour bar, coloured by the
    third gaussian sample of 1000 values drawn for the series (after its
    x and y samples, and not moved), and is named by its 1-based
    position. *)
Theorem scatter_series_markers (idx : Z) (st : St) :
  exists fig st',
    generate_plot (F := F) "scatter" idx st = (inr fig, st') /\
    forall i : nat,
      (i < 50)%nat ->
      exists tr cell,
        nth_error (data fig) i = Some (tr, cell) /\
        trace_marker tr
        = Some (mkMarker 2 (snd (scatter_draws (Z.of_nat i) st))
                         "Viridis" false) /\
        trace_name tr = Some ("Dataset " ++ str (Z.of_nat i + 1)) /\
        List.length (snd (scatter_draws (Z.of_nat i) st)) = 1000%nat.
Proof.
  enter_branch.
  pose proof (fun i B =>
    scatter_loop_trace _ scatter_body_marker 50 i
      (make_subplots 2 2 ["Scatter 1"; "Scatter 2"; "Scatter 3"; "Scatter 4"]
         false false)
      st B eq_refl) as SER.
  change (range (Z.of_nat 50)) with (range 50) in SER.
  match goal with
  | |- context [for_each ?l scatter_body ?fig st] =>
      change fig with (make_subplots (F := F) 2 2
        ["Scatter 1"; "Scatter 2"; "Scatter 3"; "Scatter 4"] false false);
      destruct (for_each l scatter_body
        (make_subplots 2 2
           ["Scatter 1"; "Scatter 2"; "Scatter 3"; "Scatter 4"]
           false false) st)
        as [fig' st']
  end.
  cbn [fst] in *. eexists. eexists. split; [reflexivity |].
  intros i B. destruct (SER i B) as ([tr cell] & N & M & Nm & L).
  exists tr, cell. cbn [update_layout data fst] in *.
  unfold scatter_draws. auto.
Qed.

Lemma area_traces_data (x : list F) (pairs : list (Z * list F)) :
  forall fig,
    data (fold_left (area_trace x) pairs fig)
    = (data fig ++
       map (fun p =>
              (Scatter x (snd p) "lines" ("Series " ++ str (fst p + 1))
                       None
                       (Some (if 0 <? fst p then "tonexty" else "tozeroy")),
               None)) pairs)%list.
Proof.
  induction pairs as [| [i y] pairs IH]; intros fig.
  - cbn [fold_left map]. rewrite app_nil_r. reflexivity.
  - cbn [fold_left map]. rewrite IH. unfold area_trace, add_trace.
    cbn [data fst snd]. rewrite <- app_assoc. reflexivity.
Qed.

(** X11.  The area figure stacks its five series over one x axis: all
    traces share the 500 points of [linspace(0, 10, 500)], the first one
    fills down to zero and each later one fills down to the trace before
    it, and they are named Series 1 to Series 5 in order. *)
Theorem area_traces_stack (idx : Z) (st : St) :
  exists fig st',
    generate_plot (F := F) "area" idx st = (inr fig, st') /\
    map (fun p => trace_fill (fst p)) (data fig)
    = [Some "tozeroy"; Some "tonexty"; Some "tonexty"; Some "tonexty";
       Some "tonexty"] /\
    map (fun p => trace_name (fst p)) (data fig)
    = [Some "Series 1"; Some "Series 2"; Some "Series 3"; Some "Series 4";
       Some "Series 5"] /\
    Forall (fun p => option_map fst (scatter_xy (fst p))
                     = Some (np_linspace (of_int 0) (of_int 10) 500))
           (data fig).
Proof.
  enter_branch.
  match goal with
  | |- context [for_each ?l area_series ?acc st] =>
      pose proof (for_each_observed (map (@List.length F)) area_series
                    (fun _ => [500%nat]) area_series_lengths l acc st) as O;
      destruct (for_each l area_series acc st) as [y_data st']
  end.
  cbn [fst] in *. eexists. eexists. split; [reflexivity |].
  cbn [update_layout data]. rewrite area_traces_data.
  cbn [go_Figure data app].
  apply (f_equal (@List.length nat)) in O. rewrite length_map in O.
  cbn in O.
  destruct y_data as [| y0 [| y1 [| y2 [| y3 [| y4 [| y5 ys]]]]]];
    try discriminate O.
  split; [reflexivity |]. split; [reflexivity |].
  repeat constructor.
Qed.

(** X12.  The violin figure holds one trace over two columns of 5000
    rows: the categories A to E, 1000 rows each in that order, and for
    each category 1000 gaussian draws of scale 1 centred on the distance
    of its letter from C, that is on -2, -1, 0, 1 and 2, drawn one
    category after the other. *)
Theorem violin_columns (idx : Z) (st : St) :
  exists fig st',
    generate_plot (F := F) "violin" idx st = (inr fig, st') /\
    data fig
    = [(Violin (repeat "A" 1000 ++ repeat "B" 1000 ++ repeat "C" 1000
                ++ repeat "D" 1000 ++ repeat "E" 1000)%list
               (violin_values st), None)] /\
    List.length (violin_values (F := F) st) = 5000%nat.
Proof.
  enter_branch. cbn [for_each].
  unfold violin_body, np_random_normal, violin_values, violin_samples,
    bind, ret.
  change (ord "A" - ord "C") with (-2).
  change (ord "B" - ord "C") with (-1).
  change (ord "C" - ord "C") with 0.
  change (ord "D" - ord "C") with 1.
  change (ord "E" - ord "C") with 2.
  cbv beta.
  repeat (match goal with
          | |- context [let (_, _) := replicateM 1000 ?m ?s in _] =>
              let L := fresh "L" in
              pose proof (replicateM_length m 1000 s) as L;
              destruct (replicateM 1000 m s)
          end; cbv beta iota zeta; cbn [fst] in * ).
  eexists. eexists. split; [reflexivity |].
  unfold px_violin, extend_columns.
  cbn [data df_category df_value fst snd app].
  repeat match goal with L : List.length _ = _ |- _ => rewrite L end.
  rewrite <- !app_assoc. split; [reflexivity |].
  rewrite !length_app.
  repeat match goal with L : List.length _ = _ |- _ => rewrite L; clear L end.
  reflexivity.
Qed.

Lemma area_traces_layout (x : list F) (pairs : list (Z * list F)) :
  forall fig, layout (fold_left (area_trace x) pairs fig) = layout fig.
Proof.
  induction pairs as [| [i y] pairs IH]; intros fig; [reflexivity |].
  cbn [fold_left]. rewrite IH. reflexivity.
Qed.

Ltac keeps_layout :=
  intros; unfold scatter_body, line_body, bar_body, histogram_body,
    bind, ret;
  run_draws; cbn [fst add_trace layout]; assumption.

Ltac layout_of_branch :=
  enter_branch; unfold result_layout;
  try match goal with
      | |- context [for_each ?l ?body ?fig ?st] =>
          let G := fresh "G" in
          assert (G : layout (fst (for_each l body fig st)) = layout fig)
            by (apply (for_each_invariant (fun f => layout f = layout fig));
                [keeps_layout | reflexivity]);
          destruct (for_each l body fig st); cbn [fst] in G
      end;
  run_draws; cbn [fst]; unfold update_layout;
  rewrite ?area_traces_layout;
  repeat match goal with G : layout _ = _ |- _ => rewrite G; clear G end;
  reflexivity.

Ltac items_of_branch :=
  unfold result_items;
  first [ rewrite scatter_shapes | rewrite line_shapes | rewrite bar_shapes
        | rewrite histogram_shapes | rewrite box_shapes
        | rewrite heatmap_shapes | rewrite pie_shapes
        | rewrite violin_shapes | rewrite area_shapes
        | rewrite funnel_shapes ];
  vm_compute; reflexivity.

Lemma announced_without_limit (idx : Z) (st : St) :
  Forall (fun entry =>
            let '(tag, (description, items, legend, mode)) := entry in
            result_layout (generate_plot (F := F) tag idx st)
            = Some (mkLayout
                      (Some ("Plot " ++ str (idx + 1) ++ ": " ++ description))
                      legend mode) /\
            result_items (generate_plot (F := F) tag idx st) = Some items)
         announced.
Proof.
  unfold announced.
  repeat (apply Forall_cons;
          [cbv beta iota; split; [layout_of_branch | items_of_branch] |]).
  apply Forall_nil.
Qed.

(** X13.  The titles tell the truth about the data: whenever the call
    for a tag returns, the title of the figure is "Plot", the 1-based
    index and the tag's description, and the number of points, bars,
    samples, cells, slices or stages the description announces is the
    number the figure's traces hold.  The legend is switched off for
    scatter and bar only, and overlaid bars are asked for by histogram
    only. *)
Theorem titles_announce_data (idx : Z) (st : St) :
  Forall (fun entry =>
            let '(tag, (description, items, legend, mode)) := entry in
            forall (fig : Figure F) (st' : St),
              generate_plot_limited tag idx st = (inr fig, st') ->
              layout fig
              = mkLayout
                  (Some ("Plot " ++ str (idx + 1) ++ ": " ++ description))
                  legend mode /\
              fold_right Z.add 0 (map shape_items (shapes fig)) = items)
         announced.
Proof.
  eapply Forall_impl; [| apply (announced_without_limit idx st)].
  intros [tag [[[description items] legend] mode]] [L I] fig st' R.
  apply generate_plot_limited_returns in R as [R _].
  unfold result_layout, result_items, result_shapes in L, I.
  rewrite R in L, I. cbn [fst option_map] in L, I.
  split; congruence.
Qed.

(** X14.  The three histogram samples are consecutive blocks of 2000
    gaussian draws, the sample of series [i] centred on [i] with scale
    1; each is binned into 50 bins at opacity 0.7. *)
Theorem histogram_samples (idx : Z) (st : St) :
  let sample i :=
    fst (np_random_normal (F := F) (of_int i) (of_int 1) 2000
           (after_draws (legacy_gauss (F := F)) (Z.to_nat i * 2000) st)) in
  exists fig st',
    generate_plot (F := F) "histogram" idx st = (inr fig, st') /\
    data fig
    = [(Histogram (sample 0) 50 "Distribution 1" lit_0_7, None);
       (Histogram (sample 1) 50 "Distribution 2" lit_0_7, None);
       (Histogram (sample 2) 50 "Distribution 3" lit_0_7, None)].
Proof.
  cbv zeta. enter_branch. change (range 3) with [0; 1; 2].
  cbn [for_each]. unfold histogram_body, bind, ret. cbv beta.
  change (Z.to_nat 0 * 2000)%nat with 0%nat.
  change (Z.to_nat 1 * 2000)%nat with 2000%nat.
  change (Z.to_nat 2 * 2000)%nat with (2000 + 2000)%nat.
  rewrite after_draws_add.
  change (after_draws legacy_gauss 0 st) with st.
  repeat (match goal with
          | |- context [let (_, _) := np_random_normal ?a ?b ?n ?s in _] =>
              lazymatch s with
              | context [let (_, _) := _ in _] => fail
              | _ =>
                  let S := fresh "S" in
                  pose proof (normal_state a b n s) as S;
                  destruct (np_random_normal a b n s);
                  cbn [snd] in S; subst
              end
          end; cbv beta iota zeta; cbn [fst]).
  eexists. eexists. split; reflexivity.
Qed.

(** X15.  The four bar series are consecutive blocks of 50 exponential
    draws of scale 10, the heights of series [i] raised by [5 * i], all
    over the 50 categories Cat_000 to Cat_049; series [i] is named
    Group [i + 1] and sits in cell [i] of the grid. *)
Theorem bar_heights (idx : Z) (st : St) :
  let heights i :=
    fst (np_random_exponential (F := F) (of_int 10) 50
           (after_draws (legacy_standard_exponential (F := F))
              (Z.to_nat i * 50) st)) in
  let categories := map (fun j => "Cat_" ++ zfill 3 j) (range 50) in
  exists fig st',
    generate_plot (F := F) "bar" idx st = (inr fig, st') /\
    data fig
    = map (fun i => (Bar categories (add_int (heights i) (5 * i))
                         ("Group " ++ str (i + 1)),
                     Some (i / 2 + 1, i mod 2 + 1)))
          [0; 1; 2; 3] /\
    nth_error categories 0 = Some "Cat_000" /\
    nth_error categories 49 = Some "Cat_049".
Proof.
  cbv zeta. enter_branch. change (range 4) with [0; 1; 2; 3].
  cbn [for_each map]. unfold bar_body, bind, ret. cbv beta.
  change (Z.to_nat 0 * 50)%nat with 0%nat.
  change (Z.to_nat 1 * 50)%nat with 50%nat.
  change (Z.to_nat 2 * 50)%nat with (50 + 50)%nat.
  change (Z.to_nat 3 * 50)%nat with (50 + (50 + 50))%nat.
  rewrite !after_draws_add.
  change (after_draws legacy_standard_exponential 0 st) with st.
  repeat (match goal with
          | |- context [let (_, _) := np_random_exponential ?a ?n ?s in _] =>
              lazymatch s with
              | context [let (_, _) := _ in _] => fail
              | _ =>
                  let S := fresh "S" in
                  pose proof (exponential_state a n s) as S;
                  destruct (np_random_exponential a n s);
                  cbn [snd] in S; subst
              end
          end; cbv beta iota zeta; cbn [fst]).
  eexists. eexists. split; [reflexivity |].
  split; [reflexivity |]. split; reflexivity.
Qed.

End Properties.

(** * Concrete runs on the integer instance *)

Import ZModel.

(** The tag "pie" is in the catalog: at index 3 the call returns, and at
    the index 10^4300 - 1, whose 1-based value has 4301 digits, it raises
    an error that is not the unknown-type one. *)
Lemma generate_plot_raises_iff_unknown_witness :
  In "pie" PLOT_TYPES /\ 0 <= 3 /\ decimal_digits (3 + 1) <= 4300 /\
  4300 < decimal_digits (10 ^ 4300 - 1 + 1) /\
  (exists fig,
     fst (generate_plot_limited (F := Z) "pie" 3 seeded) = inr fig) /\
  (exists msg,
     fst (generate_plot_limited (F := Z) "pie" (10 ^ 4300 - 1) seeded)
     = inl (ValueError msg) /\
     msg <> "Unknown plot type: pie").
Proof.
  assert (I : In "pie" PLOT_TYPES) by (cbn; tauto).
  assert (P : 0 <= 3) by lia.
  assert (D : decimal_digits (3 + 1) <= 4300) by (vm_compute; discriminate).
  assert (L : 4300 < decimal_digits (10 ^ 4300 - 1 + 1))
    by (vm_compute; reflexivity).
  split; [exact I |]. split; [exact P |]. split; [exact D |].
  split; [exact L |]. split.
  - exact (proj1 (proj2 (generate_plot_raises_iff_unknown "pie" 3 seeded))
             I P D).
  - exact (proj2 (proj2 (generate_plot_raises_iff_unknown
                           "pie" (10 ^ 4300 - 1) seeded)) I L).
Defined.

(** A catalog tag and a non-negative index for which the call raises:
    "pie" at the index 10^4300 - 1.  The 25 draws are made, then the
    title needs the text of 10^4300, which has 4301 digits. *)
Lemma generate_plot_raises_on_long_index :
  In "pie" PLOT_TYPES /\ 0 <= 10 ^ 4300 - 1 /\
  fst (generate_plot_limited (F := Z) "pie" (10 ^ 4300 - 1) seeded)
  = inl (ValueError ("Exceeds the limit (4300 digits) for integer string "
                     ++ "conversion; use sys.set_int_max_str_digits() "
                     ++ "to increase the limit")) /\
  forall fig,
    fst (generate_plot_limited (F := Z) "pie" (10 ^ 4300 - 1) seeded)
    <> inr fig.
Proof.
  assert (E : fst (generate_plot_limited (F := Z) "pie"
                     (10 ^ 4300 - 1) seeded)
              = inl (ValueError
                       ("Exceeds the limit (4300 digits) for integer string "
                        ++ "conversion; use sys.set_int_max_str_digits() "
                        ++ "to increase the limit"))).
  { unfold generate_plot_limited, int_to_text, int_max_str_digits.
    destruct (generate_plot_catalog (F := Z) "pie" (10 ^ 4300 - 1) seeded)
      as (fig & st' & G); [cbn; tauto |].
    rewrite G.
    replace (decimal_digits (10 ^ 4300 - 1 + 1)) with 4301
      by (vm_compute; reflexivity).
    reflexivity. }
  split; [cbn; tauto |]. split; [vm_compute; discriminate |].
  split; [exact E |]. intros fig. rewrite E. discriminate.
Qed.

(** Series 1 of the scatter figure at the seed: its arrays are not the
    samples moved by (1 % 10, 1 // 10) = (1, 0); they are the samples
    moved by (2, 0). *)
Lemma scatter_offsets_not_as_specified :
  let series1 :=
    match fst (generate_plot (F := Z) "scatter" 0 seeded) with
    | inr fig => series_xy fig 1
    | inl _ => None
    end in
  series1 <> Some (scatter_xy_as_specified 1 seeded) /\
  series1 = Some (scatter_xy_doubled 1 seeded).
Proof.
  cbv zeta. split.
  - intros H.
    apply (f_equal (option_map (fun p : list Z * list Z => hd 0 (fst p))))
      in H.
    vm_compute in H. discriminate H.
  - vm_compute. reflexivity.
Qed.

(** Series 1 of the scatter figure at the seed. *)
Lemma scatter_series_doubled_offsets_witness :
  (1 < 50)%nat /\
  exists fig st',
    generate_plot (F := Z) "scatter" 0 seeded = (inr fig, st') /\
    series_xy fig 1 = Some (scatter_xy_doubled 1 seeded).
Proof.
  assert (B : (1 < 50)%nat) by lia.
  split; [exact B |].
  destruct (scatter_series_doubled_offsets (F := Z) 0 seeded)
    as (fig & st' & R & _ & S).
  exists fig, st'. split; [exact R |].
  exact (proj1 (S 1%nat B)).
Defined.

(** The line figure at index 2: it has four traces and all four sit in
    their cells. *)
Lemma grid_cell_mapping_witness :
  In "line" ["scatter"; "line"; "bar"] /\
  exists fig st',
    generate_plot (F := Z) "line" 2 seeded = (inr fig, st') /\
    List.length (data fig) = 4%nat /\
    forall (s : nat) tr cell,
      nth_error (data fig) s = Some (tr, cell) ->
      cell = Some (((Z.of_nat s mod 4) / 2 + 1,
                    (Z.of_nat s mod 4) mod 2 + 1)).
Proof.
  assert (I : In "line" ["scatter"; "line"; "bar"]) by (cbn; tauto).
  split; [exact I |].
  exact (proj1 (grid_cell_mapping (F := Z) "line" 2 seeded) I).
Defined.

(** The pie figures of indices 0 and 5 at the seed: both calls return,
    with one generator state and the same traces. *)
Lemma generate_plot_index_only_in_title_witness :
  exists f1 f2 s1 s2,
    generate_plot_limited (F := Z) "pie" 0 seeded = (inr f1, s1) /\
    generate_plot_limited (F := Z) "pie" 5 seeded = (inr f2, s2) /\
    s1 = s2 /\ data f1 = data f2 /\ grid f1 = grid f2.
Proof.
  destruct (generate_plot_limited (F := Z) "pie" 0 seeded)
    as [[e1 | f1] s1] eqn:E1; [vm_compute in E1; discriminate E1 |].
  destruct (generate_plot_limited (F := Z) "pie" 5 seeded)
    as [[e2 | f2] s2] eqn:E2; [vm_compute in E2; discriminate E2 |].
  exists f1, f2, s1, s2.
  split; [reflexivity |]. split; [reflexivity |].
  destruct (proj1 (generate_plot_index_only_in_title (F := Z)
                     "pie" 0 5 seeded) f1 f2 s1 s2 E1 E2)
    as (S & D & G & _).
  auto.
Defined.

(** [PLOT_COUNT] unset, set to "7", set to the Arabic-Indic digit seven
    between a no-break space and a line feed, and set to "seven". *)
Lemma get_plot_count_resolves_witness :
  fst (get_plot_count (world0 [])) = inr 4 /\
  decimal_digits 7 <= 4300 /\
  fst (get_plot_count (world0 [("PLOT_COUNT", codes (str 7))])) = inr 7 /\
  (exists k, int_literal [0xa0; 0x667; 10]%N 7 k /\ k <= 4300) /\
  ~ (exists n k, int_literal (codes "seven") n k /\ k <= 4300) /\
  exists msg,
    fst (get_plot_count (world0 [("PLOT_COUNT", codes "seven")]))
    = inl (ValueError msg).
Proof.
  assert (D : decimal_digits 7 <= 4300) by (vm_compute; discriminate).
  assert (NL : ~ (exists n k, int_literal (codes "seven") n k /\ k <= 4300)).
  { intros (n & k & L).
    assert (R : fst (get_plot_count
                       (world0 [("PLOT_COUNT", codes "seven")])) = inr n).
    { apply (proj1 (proj2 (proj2 (get_plot_count_resolves
                     (world0 [("PLOT_COUNT", codes "seven")]))))
               (codes "seven") n eq_refl).
      exists k. exact L. }
    vm_compute in R. discriminate R. }
  split; [| split; [| split; [| split; [| split]]]].
  - exact (proj1 (get_plot_count_resolves (world0 [])) eq_refl).
  - exact D.
  - exact (proj1 (proj2 (get_plot_count_resolves
                           (world0 [("PLOT_COUNT", codes (str 7))])))
                 7 eq_refl D).
  - apply (proj1 (proj2 (proj2 (get_plot_count_resolves
                   (world0 [("PLOT_COUNT", [0xa0; 0x667; 10]%N)]))))
             [0xa0; 0x667; 10]%N 7 eq_refl).
    vm_compute. reflexivity.
  - exact NL.
  - destruct (proj2 (proj2 (proj2 (get_plot_count_resolves
                 (world0 [("PLOT_COUNT", codes "seven")]))))
                (codes "seven") eq_refl NL) as (msg & E & _).
    exists msg. exact E.
Defined.

(** [PLOT_COUNT] set to the decimal text of 10 ^ 4300, which has 4301
    digits: [get_plot_count] does not return that integer, it raises. *)
Lemma get_plot_count_refuses_long_text :
  let w := world0 [("PLOT_COUNT", codes (str (10 ^ 4300)))] in
  lookup_env "PLOT_COUNT" (environ w) = Some (codes (str (10 ^ 4300))) /\
  fst (get_plot_count w) <> inr (10 ^ 4300) /\
  exists msg, fst (get_plot_count w) = inl (ValueError msg).
Proof.
  cbv zeta.
  assert (E : fst (get_plot_count
                     (world0 [("PLOT_COUNT", codes (str (10 ^ 4300)))]))
              = inl (too_many_digits 4301)).
  { unfold get_plot_count, os_getenv. cbn [fst]. 
    change (lookup_env "PLOT_COUNT"
              (environ (world0 [("PLOT_COUNT", codes (str (10 ^ 4300)))])))
      with (Some (codes (str (10 ^ 4300)))).
    cbv iota. rewrite py_int_str.
    replace (decimal_digits (10 ^ 4300)) with 4301
      by (vm_compute; reflexivity).
    reflexivity. }
  split; [reflexivity |]. rewrite E. split; [discriminate |].
  eexists. reflexivity.
Qed.

Lemma leb_total_on (l : list Z) (a b : Z) :
  In a l -> In b l -> fle a b = true \/ fle b a = true.
Proof.
  intros _ _. cbn [fle float_Z]. destruct (Z.leb_spec a b); [left | right].
  - reflexivity.
  - apply Z.leb_le. lia.
Defined.

Lemma leb_trans_on (l : list Z) (a b c : Z) :
  In a l -> In b l -> In c l ->
  fle a b = true -> fle b c = true -> fle a c = true.
Proof.
  intros _ _ _. cbn [fle float_Z]. rewrite !Z.leb_le. lia.
Defined.

(** The funnel figure at the seed: the comparison of the instance is
    total and transitive, and the 15 values come out in descending
    order. *)
Lemma funnel_stages_descending_witness :
  let draws := fst (np_random_exponential (F := Z) (of_int 100) 15 seeded) in
  (forall a b, In a draws -> In b draws ->
     fle a b = true \/ fle b a = true) /\
  (forall a b c, In a draws -> In b draws -> In c draws ->
     fle a b = true -> fle b c = true -> fle a c = true) /\
  exists values,
    Permutation values draws /\
    StronglySorted (fun a b => fle b a = true) values.
Proof.
  intros draws.
  split; [exact (leb_total_on draws) |].
  split; [exact (leb_trans_on draws) |].
  destruct (funnel_stages_descending (F := Z) 0 seeded
              (leb_total_on draws) (leb_trans_on draws))
    as (values & st' & _ & _ & P & S).
  exists values. split; [exact P | exact S].
Defined.

(** * Further concrete runs *)

(** A count of -3, given or read from the environment. *)
Lemma generate_plots_nonpositive_witness :
  -3 <= 0 /\ decimal_digits (-3) <= 4300 /\
  generate_plots (Some (-3)) true (world0 []) = (inr tt, world0 []) /\
  fst (generate_plots None true
         (world0 [("PLOT_COUNT", codes (str (-3)))])) = inr tt.
Proof.
  assert (N : -3 <= 0) by lia.
  assert (D : decimal_digits (-3) <= 4300) by (vm_compute; discriminate).
  split; [exact N |]. split; [exact D |]. split.
  - exact (proj1 (generate_plots_nonpositive (-3) true (world0 []) N)).
  - rewrite (proj2 (generate_plots_nonpositive (-3) true
                      (world0 [("PLOT_COUNT", codes (str (-3)))]) N)
               eq_refl D).
    reflexivity.
Defined.

(** [PLOT_COUNT] unset: four plots, and no error. *)
Lemma generate_plots_default_count_witness :
  generate_plots None true (world0 [])
  = generate_plots (Some 4) true (emit (Getenv "PLOT_COUNT") (world0 [])) /\
  ~ (exists e, fst (generate_plots None true (world0 [])) = inl e).
Proof.
  split.
  - exact (proj1 (generate_plots_default_count true (world0 []))).
  - intros H.
    apply (proj1 (proj2 (generate_plots_default_count true (world0 []))))
      in H.
    destruct H as (s & E & _). discriminate E.
Defined.

(** The pie figures of plots 1 and 11 of a run. *)
Lemma generate_plot_titles_differ_witness :
  exists f1 f2 s1 s2,
    generate_plot_limited (F := Z) "pie" 0 seeded = (inr f1, s1) /\
    generate_plot_limited (F := Z) "pie" 10 seeded = (inr f2, s2) /\
    0 <> 10 /\
    title (layout f1) <> title (layout f2).
Proof.
  assert (N : 0 <> 10) by lia.
  destruct (generate_plot_limited (F := Z) "pie" 0 seeded)
    as [[e1 | f1] s1] eqn:E1; [vm_compute in E1; discriminate E1 |].
  destruct (generate_plot_limited (F := Z) "pie" 10 seeded)
    as [[e2 | f2] s2] eqn:E2; [vm_compute in E2; discriminate E2 |].
  exists f1, f2, s1, s2.
  split; [reflexivity |]. split; [reflexivity |]. split; [exact N |].
  exact (proj2 (generate_plot_titles_differ (F := Z) "pie" 0 10
                  seeded seeded f1 f2 s1 s2 E1 E2 N)).
Defined.

(** The pie figure of plot 3: its title and its 25 slices. *)
Lemma titles_announce_data_witness :
  exists fig st',
    generate_plot_limited (F := Z) "pie" 2 seeded = (inr fig, st') /\
    title (layout fig) = Some "Plot 3: Pie Chart (25 slices)" /\
    fold_right Z.add 0 (map shape_items (shapes fig)) = 25.
Proof.
  destruct (generate_plot_limited (F := Z) "pie" 2 seeded)
    as [[e | fig] st'] eqn:E; [vm_compute in E; discriminate E |].
  exists fig, st'. split; [reflexivity |].
  assert (I : In ("pie", ("Pie Chart (25 slices)", 25, @None bool,
                          @None string)) announced)
    by (cbn; tauto).
  pose proof (proj1 (Forall_forall _ _)
                (titles_announce_data (F := Z) 2 seeded) _ I fig st' E)
    as [L T].
  split; [rewrite L; reflexivity | exact T].
Defined.


(** The second row, first column of the line figure. *)
Lemma traces_per_cell_witness :
  1 <= 2 <= 2 /\ 1 <= 1 <= 2 /\
  exists line,
    result_cells (generate_plot (F := Z) "line" 0 seeded) = Some line /\
    traces_at 2 1 line = 1%nat.
Proof.
  assert (R : 1 <= 2 <= 2) by lia.
  assert (C : 1 <= 1 <= 2) by lia.
  split; [exact R |]. split; [exact C |].
  destruct (traces_per_cell (F := Z) 0 seeded)
    as (scatter & line & bar & _ & L & _ & _ & _ & _ & _ & Each).
  exists line. split; [exact L |]. exact (proj1 (Each 2 1 R C)).
Defined.

(** Series 7 of the scatter figure at the seed. *)
Lemma scatter_series_markers_witness :
  (7 < 50)%nat /\
  exists fig st' tr cell,
    generate_plot (F := Z) "scatter" 0 seeded = (inr fig, st') /\
    nth_error (data fig) 7 = Some (tr, cell) /\
    trace_name tr = Some "Dataset 8".
Proof.
  assert (B : (7 < 50)%nat) by lia.
  split; [exact B |].
  destruct (scatter_series_markers (F := Z) 0 seeded)
    as (fig & st' & R & S).
  destruct (S 7%nat B) as (tr & cell & N & _ & Nm & _).
  exists fig, st', tr, cell. auto.
Defined.
